(** * VaultIQ front end: the [useApiStream] hook

    A shallow embedding of [vaultiq-frontend/src/hooks/useApiStream.ts]:
    the [query] and [reset] callbacks of the hook, the four pieces of React
    state they drive, and the parts of the JavaScript platform the hook
    calls ([TextDecoder], [JSON.parse], property access, [ToBoolean],
    [String.prototype.trim] and [String.prototype.includes]).

    The hook never reads its own state: it only calls the four setters.
    A run of a callback is therefore modelled as the sequence of effects it
    performs (setter calls, the network call, reads of the response body and
    console output) together with its completion (normal or abrupt), and
    the state it leaves is the fold of the setter calls over the state it
    started from.  A response body is the finite list of chunks its reader
    delivers, followed by its end (closed, or a read that rejects); a body
    that never ends, on which [query] never settles, is outside the
    model. *)

From Stdlib Require Import List NArith ZArith QArith Qabs Bool String Ascii Lia.
From Stdlib Require Import Strings.Byte.
Import ListNotations.

Set Warnings "-notation-for-abbreviation".

Local Open Scope N_scope.

(** ** JavaScript strings

    A JavaScript string is a sequence of UTF-16 code units. *)

Definition jsstring := list N.

(** An ASCII literal as a JavaScript string. *)
Definition js (s : string) : jsstring :=
  map N_of_ascii (list_ascii_of_string s).

(** The same, with every apostrophe of the literal standing for a double
    quote (U+0022), so that JSON text can be written legibly. *)
Definition unquote (c : N) : N := if c =? 39 then 34 else c.

Definition jsq (s : string) : jsstring := map unquote (js s).

(** The bytes of an ASCII literal, apostrophes standing for double quotes. *)
Definition bytes_of_N (l : list N) : list byte :=
  map (fun n => match Byte.of_N n with Some b => b | None => x00 end) l.

Definition bytesq (s : string) : list byte := bytes_of_N (jsq s).

Definition jsstring_eqb (a b : jsstring) : bool :=
  if list_eq_dec N.eq_dec a b then true else false.

(** [String.prototype.includes]: [pat] occurs in [s] as a substring. *)
Fixpoint isPrefixOf (pat s : jsstring) : bool :=
  match pat, s with
  | [], _ => true
  | _ :: _, [] => false
  | p :: pat', c :: s' => (p =? c) && isPrefixOf pat' s'
  end.

Fixpoint includes (s pat : jsstring) : bool :=
  isPrefixOf pat s ||
  match s with
  | [] => false
  | _ :: s' => includes s' pat
  end.

(** ECMAScript WhiteSpace and LineTerminator code points, the ones
    [String.prototype.trim] strips. *)
Definition isTrimmable (c : N) : bool :=
  (c =? 0x09) || (c =? 0x0A) || (c =? 0x0B) || (c =? 0x0C) || (c =? 0x0D) ||
  (c =? 0x20) || (c =? 0xA0) || (c =? 0x1680) ||
  ((0x2000 <=? c) && (c <=? 0x200A)) ||
  (c =? 0x2028) || (c =? 0x2029) || (c =? 0x202F) || (c =? 0x205F) ||
  (c =? 0x3000) || (c =? 0xFEFF).

Fixpoint trimStart (s : jsstring) : jsstring :=
  match s with
  | c :: s' => if isTrimmable c then trimStart s' else s
  | [] => []
  end.

Definition trim (s : jsstring) : jsstring :=
  rev (trimStart (rev (trimStart s))).

(** ** JavaScript values

    The values [JSON.parse] can produce, and [undefined].  A number is kept
    as the exact rational its literal denotes (in lowest terms); ECMAScript
    rounds it to the nearest binary64, which only [ToBoolean] below has to
    take into account.  An object is the list of its own properties in
    creation order. *)

#[warnings="-register-all"]
Inductive Value : Type :=
| VUndefined
| VNull
| VBool (b : bool)
| VNumber (q : Q)
| VString (s : jsstring)
| VArray (elems : list Value)
| VObject (props : list (jsstring * Value)).

(** [CreateDataProperty]: a repeated key overwrites the earlier value and
    keeps its place. *)
Fixpoint defineProp (props : list (jsstring * Value)) (k : jsstring) (v : Value)
  : list (jsstring * Value) :=
  match props with
  | [] => [(k, v)]
  | (k', v') :: rest =>
      if jsstring_eqb k' k then (k', v) :: rest
      else (k', v') :: defineProp rest k v
  end.

Fixpoint lookupProp (props : list (jsstring * Value)) (k : jsstring) : option Value :=
  match props with
  | [] => None
  | (k', v) :: rest => if jsstring_eqb k' k then Some v else lookupProp rest k
  end.

(** The value of [v.k] when reading it does not throw. *)
Definition propertyOf (v : Value) (k : jsstring) : Value :=
  match v with
  | VObject props =>
      match lookupProp props k with Some x => x | None => VUndefined end
  | _ => VUndefined
  end.

(** A binary64 is zero exactly when the real it rounds is at most 2^-1075
    in magnitude (round to nearest, ties to even). *)
Definition roundsToZero (q : Q) : bool :=
  Qle_bool (Qabs q) (1 # (2 ^ 1075)).

(** [ToBoolean]. *)
Definition toBoolean (v : Value) : bool :=
  match v with
  | VUndefined | VNull => false
  | VBool b => b
  | VNumber q => negb (roundsToZero q)
  | VString s => match s with [] => false | _ => true end
  | VArray _ | VObject _ => true
  end.

(** ** [TextDecoder]

    The UTF-8 decoder of the WHATWG Encoding standard, in replacement mode
    (the hook builds [new TextDecoder()] with no options).  [cp], [seen],
    [needed], [lower] and [upper] are the standard's "UTF-8 code point",
    "bytes seen", "bytes needed" and the two boundaries. *)

Record Utf8State := mkUtf8 {
  cp : N; seen : N; needed : N; lower : N; upper : N
}.

Definition utf8_init : Utf8State := mkUtf8 0 0 0 0x80 0xBF.

Definition REPLACEMENT : N := 0xFFFD.

(** The handler when no continuation byte is awaited. *)
Definition utf8_lead (b : N) : Utf8State * list N :=
  if b <=? 0x7F then (utf8_init, [b])
  else if (0xC2 <=? b) && (b <=? 0xDF) then
    (mkUtf8 (N.land b 0x1F) 0 1 0x80 0xBF, [])
  else if (0xE0 <=? b) && (b <=? 0xEF) then
    (mkUtf8 (N.land b 0xF) 0 2
       (if b =? 0xE0 then 0xA0 else 0x80)
       (if b =? 0xED then 0x9F else 0xBF), [])
  else if (0xF0 <=? b) && (b <=? 0xF4) then
    (mkUtf8 (N.land b 0x7) 0 3
       (if b =? 0xF0 then 0x90 else 0x80)
       (if b =? 0xF4 then 0x8F else 0xBF), [])
  else (utf8_init, [REPLACEMENT]).

(** One byte through the handler; the result is the code points emitted.
    A byte outside the boundaries is an error (U+FFFD) and is then handled
    again as a lead byte, which is what "restore byte to the queue" does. *)
Definition utf8_handler (s : Utf8State) (b : N) : Utf8State * list N :=
  if needed s =? 0 then utf8_lead b
  else if negb ((lower s <=? b) && (b <=? upper s)) then
    let '(s', out) := utf8_lead b in (s', REPLACEMENT :: out)
  else
    let cp' := N.lor (N.shiftl (cp s) 6) (N.land b 0x3F) in
    let seen' := seen s + 1 in
    if seen' =? needed s then (utf8_init, [cp'])
    else (mkUtf8 cp' seen' (needed s) 0x80 0xBF, []).

Fixpoint utf8_run (s : Utf8State) (bs : list byte) : Utf8State * list N :=
  match bs with
  | [] => (s, [])
  | b :: bs' =>
      let '(s1, out1) := utf8_handler s (Byte.to_N b) in
      let '(s2, out2) := utf8_run s1 bs' in
      (s2, out1 ++ out2)
  end.

(** End of queue: a pending sequence is an error. *)
Definition utf8_flush (s : Utf8State) : list N :=
  if needed s =? 0 then [] else [REPLACEMENT].

(** A scalar value as UTF-16 code units. *)
Definition utf16_units (c : N) : jsstring :=
  if c <? 0x10000 then [c]
  else [0xD800 + N.shiftr (c - 0x10000) 10; 0xDC00 + N.land (c - 0x10000) 0x3FF].

Definition utf16_encode (cps : list N) : jsstring := flat_map utf16_units cps.

(** A [TextDecoder] object: its decoder and its "BOM seen" flag. *)
Record TextDecoder := mkDecoder { utf8 : Utf8State; bomSeen : bool }.

Definition newTextDecoder : TextDecoder := mkDecoder utf8_init false.

(** "Serialize I/O queue": the first scalar value ever output is dropped
    when it is the byte order mark. *)
Definition serialize (seenBom : bool) (cps : list N) : bool * list N :=
  match cps with
  | [] => (seenBom, [])
  | c :: rest => (true, if negb seenBom && (c =? 0xFEFF) then rest else cps)
  end.

(** [decoder.decode(value, { stream: true })]. *)
Definition decode_stream (d : TextDecoder) (value : list byte) : TextDecoder * jsstring :=
  let '(s, cps) := utf8_run (utf8 d) value in
  let '(b, out) := serialize (bomSeen d) cps in
  (mkDecoder s b, utf16_encode out).

(** "UTF-8 decode" of a whole byte sequence, as [response.json()] does. *)
Definition utf8_decode (bs : list byte) : jsstring :=
  let '(s, cps) := utf8_run utf8_init bs in
  utf16_encode (snd (serialize false (cps ++ utf8_flush s))).

(** ** [JSON.parse]

    The JSON grammar of ECMA-262 (24.5.1), read in two passes that are
    both structural on their input: a scanner that turns code units into
    tokens, and a pushdown recogniser that builds the value. *)

Inductive Token : Type :=
| TLBrace | TRBrace | TLBracket | TRBracket | TColon | TComma
| TString (s : jsstring)
| TNumber (q : Q)
| TTrue | TFalse | TNull.

Definition ch (a : ascii) : N := N_of_ascii a.

Definition QUOTE : N := 34.
Definition BACKSLASH : N := 92.

Definition isJsonWhitespace (c : N) : bool :=
  (c =? 0x09) || (c =? 0x0A) || (c =? 0x0D) || (c =? 0x20).

Definition isDigit (c : N) : bool := (ch "0" <=? c) && (c <=? ch "9").

Definition digitValue (c : N) : N := c - ch "0".

Definition hexValue (c : N) : option N :=
  if isDigit c then Some (digitValue c)
  else if (ch "a" <=? c) && (c <=? ch "f") then Some (c - ch "a" + 10)
  else if (ch "A" <=? c) && (c <=? ch "F") then Some (c - ch "A" + 10)
  else None.

(** Where the scanner is inside a number literal. *)
Inductive NumPhase : Type :=
| NMinus      (* after the sign: a digit must follow *)
| NZero       (* after a leading 0 *)
| NInt        (* inside the integer digits *)
| NDot        (* after the point: a digit must follow *)
| NFrac       (* inside the fraction digits *)
| NExp        (* after e or E: a sign or a digit must follow *)
| NExpSign    (* after the exponent sign: a digit must follow *)
| NExpDigits. (* inside the exponent digits *)

(** The digits read so far: sign, all mantissa digits, how many of them
    follow the point, and the exponent. *)
Record NumAcc := mkNum {
  nneg : bool; mant : N; scale : N; eneg : bool; eexp : N
}.

Definition numberValue (a : NumAcc) : Q :=
  let e := ((if eneg a then - Z.of_N (eexp a) else Z.of_N (eexp a))
            - Z.of_N (scale a))%Z in
  let m := (if nneg a then - Z.of_N (mant a) else Z.of_N (mant a))%Z in
  if (0 <=? e)%Z then inject_Z (m * 10 ^ e)
  else Qred (m # Z.to_pos (10 ^ (- e))).

Definition numAccepting (p : NumPhase) : bool :=
  match p with
  | NZero | NInt | NFrac | NExpDigits => true
  | NMinus | NDot | NExp | NExpSign => false
  end.

Inductive LexMode : Type :=
| LTop                                        (* between tokens *)
| LStr (acc : jsstring)                       (* in a string; [acc] reversed *)
| LEsc (acc : jsstring)                       (* after a backslash *)
| LHex (acc : jsstring) (todo : nat) (v : N)  (* in the digits of \uXXXX *)
| LLit (rest : jsstring) (t : Token)          (* in true, false or null *)
| LNum (p : NumPhase) (a : NumAcc).           (* in a number *)

(** A code unit met between tokens. *)
Definition lex_top (c : N) : option (LexMode * list Token) :=
  if isJsonWhitespace c then Some (LTop, [])
  else if c =? ch "{" then Some (LTop, [TLBrace])
  else if c =? ch "}" then Some (LTop, [TRBrace])
  else if c =? ch "[" then Some (LTop, [TLBracket])
  else if c =? ch "]" then Some (LTop, [TRBracket])
  else if c =? ch ":" then Some (LTop, [TColon])
  else if c =? ch "," then Some (LTop, [TComma])
  else if c =? QUOTE then Some (LStr [], [])
  else if c =? ch "-" then Some (LNum NMinus (mkNum true 0 0 false 0), [])
  else if c =? ch "0" then Some (LNum NZero (mkNum false 0 0 false 0), [])
  else if isDigit c then Some (LNum NInt (mkNum false (digitValue c) 0 false 0), [])
  else if c =? ch "t" then Some (LLit (js "rue") TTrue, [])
  else if c =? ch "f" then Some (LLit (js "alse") TFalse, [])
  else if c =? ch "n" then Some (LLit (js "ull") TNull, [])
  else None.

(** The character an escape sequence stands for. *)
Definition escapeValue (c : N) : option N :=
  if c =? QUOTE then Some QUOTE
  else if c =? BACKSLASH then Some BACKSLASH
  else if c =? ch "/" then Some (ch "/")
  else if c =? ch "b" then Some 0x08
  else if c =? ch "f" then Some 0x0C
  else if c =? ch "n" then Some 0x0A
  else if c =? ch "r" then Some 0x0D
  else if c =? ch "t" then Some 0x09
  else None.

(** A code unit met inside a number: the number goes on, or [None]. *)
Definition lex_num (p : NumPhase) (a : NumAcc) (c : N) : option (NumPhase * NumAcc) :=
  let digit := mkNum (nneg a) (10 * mant a + digitValue c) (scale a) (eneg a) (eexp a) in
  let fdigit := mkNum (nneg a) (10 * mant a + digitValue c) (scale a + 1) (eneg a) (eexp a) in
  let edigit := mkNum (nneg a) (mant a) (scale a) (eneg a) (10 * eexp a + digitValue c) in
  let isE := (c =? ch "e") || (c =? ch "E") in
  match p with
  | NMinus =>
      if c =? ch "0" then Some (NZero, a)
      else if isDigit c then Some (NInt, digit) else None
  | NZero =>
      if c =? ch "." then Some (NDot, a)
      else if isE then Some (NExp, a) else None
  | NInt =>
      if isDigit c then Some (NInt, digit)
      else if c =? ch "." then Some (NDot, a)
      else if isE then Some (NExp, a) else None
  | NDot => if isDigit c then Some (NFrac, fdigit) else None
  | NFrac =>
      if isDigit c then Some (NFrac, fdigit)
      else if isE then Some (NExp, a) else None
  | NExp =>
      if c =? ch "+" then Some (NExpSign, a)
      else if c =? ch "-" then
        Some (NExpSign, mkNum (nneg a) (mant a) (scale a) true (eexp a))
      else if isDigit c then Some (NExpDigits, edigit) else None
  | NExpSign => if isDigit c then Some (NExpDigits, edigit) else None
  | NExpDigits => if isDigit c then Some (NExpDigits, edigit) else None
  end.

(** One code unit through the scanner: the new mode and the tokens
    completed, or [None] on a lexical error. *)
Definition lex_step (m : LexMode) (c : N) : option (LexMode * list Token) :=
  match m with
  | LTop => lex_top c
  | LStr acc =>
      if c =? QUOTE then Some (LTop, [TString (rev acc)])
      else if c =? BACKSLASH then Some (LEsc acc, [])
      else if c <? 0x20 then None
      else Some (LStr (c :: acc), [])
  | LEsc acc =>
      if c =? ch "u" then Some (LHex acc 4 0, [])
      else match escapeValue c with
           | Some e => Some (LStr (e :: acc), [])
           | None => None
           end
  | LHex acc todo v =>
      match hexValue c with
      | None => None
      | Some h =>
          match todo with
          | O => None
          | S O => Some (LStr ((16 * v + h) :: acc), [])
          | S todo' => Some (LHex acc todo' (16 * v + h), [])
          end
      end
  | LLit rest t =>
      match rest with
      | [] => None
      | r :: rest' =>
          if c =? r then
            match rest' with
            | [] => Some (LTop, [t])
            | _ => Some (LLit rest' t, [])
            end
          else None
      end
  | LNum p a =>
      match lex_num p a c with
      | Some (p', a') => Some (LNum p' a', [])
      | None =>
          if numAccepting p then
            match lex_top c with
            | Some (m', ts) => Some (m', TNumber (numberValue a) :: ts)
            | None => None
            end
          else None
      end
  end.

Fixpoint lex (m : LexMode) (s : jsstring) : option (list Token) :=
  match s with
  | [] =>
      match m with
      | LTop => Some []
      | LNum p a => if numAccepting p then Some [TNumber (numberValue a)] else None
      | _ => None
      end
  | c :: s' =>
      match lex_step m c with
      | None => None
      | Some (m', ts) =>
          match lex m' s' with
          | None => None
          | Some ts' => Some (ts ++ ts')
          end
      end
  end.

(** A container being built: an array with its elements so far, or an
    object with its properties so far and the key awaiting its value. *)
Inductive Frame : Type :=
| FArr (elems : list Value)
| FObj (props : list (jsstring * Value)) (key : option jsstring).

(** What the recogniser expects next. *)
Inductive Phase : Type :=
| PValue      (* a value *)
| PArrStart   (* just after [: a value or ] *)
| PObjStart   (* just after {: a key or } *)
| PKey        (* after a comma in an object: a key *)
| PColon      (* after a key *)
| PAfter      (* after a value in a container: a comma or the close *)
| PDone (v : Value).  (* the text's value is complete *)

(** A finished value goes to the container that is open, if any. *)
Definition completeValue (v : Value) (stack : list Frame) : option (Phase * list Frame) :=
  match stack with
  | [] => Some (PDone v, [])
  | FArr elems :: st => Some (PAfter, FArr (elems ++ [v]) :: st)
  | FObj props (Some k) :: st => Some (PAfter, FObj (defineProp props k v) None :: st)
  | FObj _ None :: _ => None
  end.

Definition startValue (t : Token) (stack : list Frame) : option (Phase * list Frame) :=
  match t with
  | TString s => completeValue (VString s) stack
  | TNumber q => completeValue (VNumber q) stack
  | TTrue => completeValue (VBool true) stack
  | TFalse => completeValue (VBool false) stack
  | TNull => completeValue VNull stack
  | TLBracket => Some (PArrStart, FArr [] :: stack)
  | TLBrace => Some (PObjStart, FObj [] None :: stack)
  | TRBrace | TRBracket | TColon | TComma => None
  end.

Definition closeArray (stack : list Frame) : option (Phase * list Frame) :=
  match stack with
  | FArr elems :: st => completeValue (VArray elems) st
  | _ => None
  end.

Definition closeObject (stack : list Frame) : option (Phase * list Frame) :=
  match stack with
  | FObj props None :: st => completeValue (VObject props) st
  | _ => None
  end.

Definition setKey (k : jsstring) (stack : list Frame) : option (Phase * list Frame) :=
  match stack with
  | FObj props None :: st => Some (PColon, FObj props (Some k) :: st)
  | _ => None
  end.

Definition parse_step (p : Phase) (stack : list Frame) (t : Token)
  : option (Phase * list Frame) :=
  match p with
  | PValue => startValue t stack
  | PArrStart =>
      match t with
      | TRBracket => closeArray stack
      | _ => startValue t stack
      end
  | PObjStart =>
      match t with
      | TRBrace => closeObject stack
      | TString k => setKey k stack
      | _ => None
      end
  | PKey =>
      match t with
      | TString k => setKey k stack
      | _ => None
      end
  | PColon =>
      match t with
      | TColon => Some (PValue, stack)
      | _ => None
      end
  | PAfter =>
      match t, stack with
      | TComma, FArr _ :: _ => Some (PValue, stack)
      | TComma, FObj _ None :: _ => Some (PKey, stack)
      | TRBracket, _ => closeArray stack
      | TRBrace, _ => closeObject stack
      | _, _ => None
      end
  | PDone _ => None
  end.

Fixpoint parse_tokens (p : Phase) (stack : list Frame) (ts : list Token) : option Value :=
  match ts with
  | [] => match p with PDone v => Some v | _ => None end
  | t :: ts' =>
      match parse_step p stack t with
      | None => None
      | Some (p', stack') => parse_tokens p' stack' ts'
      end
  end.

(** [JSON.parse(text)] with no reviver: the value, or [None] where
    ECMAScript throws a SyntaxError. *)
Definition JSON_parse (text : jsstring) : option Value :=
  match lex LTop text with
  | None => None
  | Some ts => parse_tokens PValue [] ts
  end.

Definition half : Q := 1 # 2.


(** ** Effects and completions

    What a callback of the hook does to the world, in order. *)

Record ApiQueryRequest := mkRequest {
  req_query : jsstring;
  req_top_k : option Q;
  req_source_filter : option (list jsstring)
}.

(** A thrown value: an instance of [Error] with its message, or anything
    else. *)
Inductive Thrown : Type :=
| ErrorObject (message : jsstring)
| OtherThrown (v : Value).

Inductive Event : Type :=
| SetAnswer (v : Value)
| SetSources (v : Value)
| SetIsLoading (b : bool)
| SetError (e : option jsstring)
| Fetch (endpoint : jsstring) (request : ApiQueryRequest)
| ResponseJson
| GetReader
| ReaderRead
| ConsoleError (label : jsstring) (e : Thrown).

Inductive Completion (A : Type) : Type :=
| Normal (a : A)
| Abrupt (e : Thrown).

Arguments Normal {A} a.
Arguments Abrupt {A} e.

(** A computation: the effects performed and how it completed. *)
Definition M (A : Type) : Type := (list Event * Completion A)%type.

Definition ret {A} (a : A) : M A := ([], Normal a).

Definition throw {A} (e : Thrown) : M A := ([], Abrupt e).

Definition emit (ev : Event) : M unit := ([ev], Normal tt).

Definition bind {A B} (m : M A) (k : A -> M B) : M B :=
  match m with
  | (t, Normal a) => let '(t', r) := k a in (t ++ t', r)
  | (t, Abrupt e) => (t, Abrupt e)
  end.

(** [try { m } catch (e) { h e }]: what [m] did before throwing stays
    done. *)
Definition tryCatch {A} (m : M A) (h : Thrown -> M A) : M A :=
  match m with
  | (t, Abrupt e) => let '(t', r) := h e in (t ++ t', r)
  | (t, Normal a) => (t, Normal a)
  end.

(** [try { m } finally { f }]: [f] runs either way, and the completion is
    that of [m] unless [f] itself throws. *)
Definition tryFinally {A} (m : M A) (f : M unit) : M A :=
  match m, f with
  | (t, r), (t', Normal _) => (t ++ t', r)
  | (t, _), (t', Abrupt e) => (t ++ t', Abrupt e)
  end.

Declare Scope js_scope.
Delimit Scope js_scope with js.

Notation "x <- m ;; k" := (bind m (fun x => k))
  (at level 100, m at next level, right associativity) : js_scope.
Notation "m ;; k" := (bind m (fun _ => k))
  (at level 100, right associativity) : js_scope.

Definition trace {A} (m : M A) : list Event := fst m.

Definition completion {A} (m : M A) : Completion A := snd m.

(** ** The React state of the hook *)

Record State := mkState {
  answer : Value;
  sources : Value;
  isLoading : bool;
  error : option jsstring
}.

(** The four [useState] initial values. *)
Definition initialState : State :=
  mkState (VString []) (VArray []) false None.

Definition apply_event (st : State) (ev : Event) : State :=
  match ev with
  | SetAnswer v => mkState v (sources st) (isLoading st) (error st)
  | SetSources v => mkState (answer st) v (isLoading st) (error st)
  | SetIsLoading b => mkState (answer st) (sources st) b (error st)
  | SetError e => mkState (answer st) (sources st) (isLoading st) e
  | Fetch _ _ | ResponseJson | GetReader | ReaderRead | ConsoleError _ _ => st
  end.

Definition run (st : State) (t : list Event) : State :=
  fold_left apply_event t st.

(** ** The response of the network *)

Inductive StreamEnd : Type :=
| Closed                 (* [reader.read()] resolves with [done] *)
| Errored (e : Thrown).  (* [reader.read()] rejects *)

(** A response body: the chunks its reader delivers, then its end. *)
Record Body := mkBody {
  chunks : list (list byte);
  ending : StreamEnd
}.

Record Response := mkResponse {
  ok : bool;
  statusText : jsstring;
  contentType : option jsstring;   (* [headers.get('content-type')] *)
  body : option Body               (* [None] is a null body *)
}.

Inductive FetchResult : Type :=
| Rejected (e : Thrown)
| Fulfilled (r : Response).

Local Open Scope js_scope.

(** ** The hook *)

Module useApiStream.

Section Platform.

(** The messages of the errors the engine itself raises are not fixed by
    ECMAScript. *)
Variable syntaxErrorMessage : jsstring -> jsstring.
Variable typeErrorMessage : Value -> jsstring -> jsstring.

(** [import.meta.env.VITE_API_URL], and what the network answers to the
    POST of a request to an endpoint. *)
Variable VITE_API_URL : option jsstring.
Variable network : jsstring -> ApiQueryRequest -> FetchResult.

(** [JSON.parse(text)]. *)
Definition jsonParse (text : jsstring) : M Value :=
  match JSON_parse text with
  | Some v => ret v
  | None => throw (ErrorObject (syntaxErrorMessage text))
  end.

(** [v.k] for a value [v] that [JSON.parse] returned and a key that no
    built-in prototype defines, as is the case of [answer] and
    [sources]. *)
Definition getProp (v : Value) (k : jsstring) : M Value :=
  match v with
  | VUndefined | VNull => throw (ErrorObject (typeErrorMessage v k))
  | VObject props =>
      ret (match lookupProp props k with Some x => x | None => VUndefined end)
  | VBool _ | VNumber _ | VString _ | VArray _ => ret VUndefined
  end.

(** [await fetch(endpoint, { method: 'POST', ... })]. *)
Definition doFetch (endpoint : jsstring) (request : ApiQueryRequest) : M Response :=
  emit (Fetch endpoint request) ;;
  match network endpoint request with
  | Rejected e => throw e
  | Fulfilled r => ret r
  end.

(** [await response.json()]: the whole body, UTF-8 decoded, parsed. *)
Definition responseJson (response : Response) : M Value :=
  emit ResponseJson ;;
  match body response with
  | None => jsonParse (utf8_decode [])
  | Some b =>
      match ending b with
      | Errored e => throw e
      | Closed => jsonParse (utf8_decode (List.concat (chunks b)))
      end
  end.

Definition when (c : bool) (m : M unit) : M unit := if c then m else ret tt.

(** The body of the [while] loop for a chunk that was read (lines 85-102):
    the result is the decoder and the buffer as they are left. *)
Definition processChunk (decoder : TextDecoder) (buffer : jsstring) (value : list byte)
  : M (TextDecoder * jsstring) :=
  let '(decoder', chunk) := decode_stream decoder value in
  let buffer := buffer ++ chunk in
  buffer' <- tryCatch
    (jsonData <- jsonParse buffer ;;
     a <- getProp jsonData (js "answer") ;;
     emit (SetAnswer a) ;;
     s <- getProp jsonData (js "sources") ;;
     when (toBoolean s) (emit (SetSources s)) ;;
     ret [])
    (fun _ => emit (SetAnswer (VString buffer)) ;; ret buffer) ;;
  ret (decoder', buffer').

(** The [done] branch (lines 70-83). *)
Definition finishStream (buffer : jsstring) : M unit :=
  when (toBoolean (VString (trim buffer)))
    (tryCatch
       (finalData <- jsonParse buffer ;;
        s <- getProp finalData (js "sources") ;;
        when (toBoolean s) (emit (SetSources s)))
       (fun _ => ret tt)).

(** The [while (true)] loop over the reads of the body. *)
Fixpoint readLoop (decoder : TextDecoder) (buffer : jsstring)
    (pending : list (list byte)) (fin : StreamEnd) : M unit :=
  emit ReaderRead ;;
  match pending with
  | [] =>
      match fin with
      | Closed => finishStream buffer
      | Errored e => throw e
      end
  | value :: rest =>
      db <- processChunk decoder buffer value ;;
      readLoop (fst db) (snd db) rest fin
  end.

Definition apiUrl : jsstring :=
  match VITE_API_URL with
  | Some u => u
  | None => []
  end.

Definition isJsonContentType (response : Response) : bool :=
  match contentType response with
  | Some ct => includes ct (js "application/json")
  | None => false
  end.

Definition errorMessageOf (err : Thrown) : jsstring :=
  match err with
  | ErrorObject message => message
  | OtherThrown _ => js "An unknown error occurred"
  end.

(** The streaming branch (lines 61-107). *)
Definition readStream (b : Body) : M unit :=
  emit GetReader ;;
  tryCatch
    (readLoop newTextDecoder [] (chunks b) (ending b))
    (fun streamError =>
       emit (ConsoleError (js "Stream reading error:") streamError) ;;
       throw (ErrorObject (js "Failed to read streaming response"))).

(** What [query] does with a response once [fetch] has resolved
    (lines 48-110). *)
Definition handleResponse (response : Response) : M unit :=
  if negb (ok response) then
    throw (ErrorObject (js "API request failed: " ++ statusText response))
  else if isJsonContentType response then
    data <- responseJson response ;;
    a <- getProp data (js "answer") ;;
    emit (SetAnswer a) ;;
    s <- getProp data (js "sources") ;;
    emit (SetSources s)
  else
    match body response with
    | Some b => readStream b
    | None => throw (ErrorObject (js "No response body received"))
    end.

(** The [try] block of [query] (lines 36-110). *)
Definition queryBody (request : ApiQueryRequest) : M unit :=
  let endpoint := apiUrl ++ js "/api/query" in
  response <- doFetch endpoint request ;;
  handleResponse response.

(** The [catch (err)] block of [query] (lines 111-114). *)
Definition queryCatch (err : Thrown) : M unit :=
  emit (SetError (Some (errorMessageOf err))) ;;
  emit (ConsoleError (js "API query error:") err).

(** The four setter calls [query] starts with (lines 30-33). *)
Definition queryStart : M unit :=
  emit (SetIsLoading true) ;;
  emit (SetError None) ;;
  emit (SetAnswer (VString [])) ;;
  emit (SetSources (VArray [])).

Definition query (request : ApiQueryRequest) : M unit :=
  queryStart ;;
  tryFinally
    (tryCatch (queryBody request) queryCatch)
    (emit (SetIsLoading false)).

Definition reset : M unit :=
  emit (SetAnswer (VString [])) ;;
  emit (SetSources (VArray [])) ;;
  emit (SetError None).

(** ** The hook without the parse at the end of the stream

    [query] again, with the [if (buffer.trim()) { ... }] of the [done]
    branch (lines 71-81) removed and nothing else changed. *)

Fixpoint readLoop_noReparse (decoder : TextDecoder) (buffer : jsstring)
    (pending : list (list byte)) (fin : StreamEnd) : M unit :=
  emit ReaderRead ;;
  match pending with
  | [] =>
      match fin with
      | Closed => ret tt
      | Errored e => throw e
      end
  | value :: rest =>
      db <- processChunk decoder buffer value ;;
      readLoop_noReparse (fst db) (snd db) rest fin
  end.

Definition readStream_noReparse (b : Body) : M unit :=
  emit GetReader ;;
  tryCatch
    (readLoop_noReparse newTextDecoder [] (chunks b) (ending b))
    (fun streamError =>
       emit (ConsoleError (js "Stream reading error:") streamError) ;;
       throw (ErrorObject (js "Failed to read streaming response"))).

Definition handleResponse_noReparse (response : Response) : M unit :=
  if negb (ok response) then
    throw (ErrorObject (js "API request failed: " ++ statusText response))
  else if isJsonContentType response then
    data <- responseJson response ;;
    a <- getProp data (js "answer") ;;
    emit (SetAnswer a) ;;
    s <- getProp data (js "sources") ;;
    emit (SetSources s)
  else
    match body response with
    | Some b => readStream_noReparse b
    | None => throw (ErrorObject (js "No response body received"))
    end.

Definition query_noReparse (request : ApiQueryRequest) : M unit :=
  queryStart ;;
  tryFinally
    (tryCatch
       (response <- doFetch (apiUrl ++ js "/api/query") request ;;
        handleResponse_noReparse response)
       queryCatch)
    (emit (SetIsLoading false)).

(** ** Observations of a run *)

(** The buffer as each chunk of a body leaves it. *)
Fixpoint bufferHistory (decoder : TextDecoder) (buffer : jsstring)
    (pending : list (list byte)) : list jsstring :=
  match pending with
  | [] => []
  | value :: rest =>
      match completion (processChunk decoder buffer value) with
      | Normal db => snd db :: bufferHistory (fst db) (snd db) rest
      | Abrupt _ => []
      end
  end.

(** The decoder and the buffer once every chunk of [pending] has gone
    through the loop. *)
Fixpoint loopState (decoder : TextDecoder) (buffer : jsstring)
    (pending : list (list byte)) : TextDecoder * jsstring :=
  match pending with
  | [] => (decoder, buffer)
  | value :: rest =>
      match completion (processChunk decoder buffer value) with
      | Normal db => loopState (fst db) (snd db) rest
      | Abrupt _ => (decoder, buffer)
      end
  end.

(** The text [JSON.parse] is given when [value] arrives after the chunks
    [before]: the buffer they left, and [value] decoded. *)
Definition bufferAt (before : list (list byte)) (value : list byte) : jsstring :=
  let db := loopState newTextDecoder [] before in
  snd db ++ snd (decode_stream (fst db) value).

End Platform.

End useApiStream.

(** The state at each [reader.read()] of a run that starts in [st]. *)
Fixpoint statesAtReads (st : State) (t : list Event) : list State :=
  match t with
  | [] => []
  | ReaderRead :: t' => st :: statesAtReads st t'
  | ev :: t' => statesAtReads (apply_event st ev) t'
  end.

Definition isSetSources (ev : Event) : bool :=
  match ev with SetSources _ => true | _ => false end.

(** The calls of [setSources] in a run of [query] after the four setter
    calls it starts with. *)
Definition populations (t : list Event) : nat :=
  List.length (filter isSetSources (skipn 4 t)).

(** The events that touch the network or the body of the response. *)
Definition isBodyEvent (ev : Event) : bool :=
  match ev with ResponseJson | GetReader | ReaderRead => true | _ => false end.

Definition isNetworkEvent (ev : Event) : bool :=
  match ev with Fetch _ _ => true | _ => isBodyEvent ev end.

(** [v] is an object with an own property [k]. *)
Definition hasProperty (v : Value) (k : jsstring) : bool :=
  match v with
  | VObject props =>
      match lookupProp props k with Some _ => true | None => false end
  | _ => false
  end.

(** *** What a run is to assign and to show

    What a run should assign and show, written from the response alone,
    with no reference to the loop of the hook. *)

Definition sourcesOf (doc : Value) : Value := propertyOf doc (js "sources").

(** The whole documents a streamed body delivers: going through the
    chunks, the accumulated text each time it is a JSON text for a value
    other than null; after each, accumulation restarts from the empty
    buffer. *)
Fixpoint parsedDocuments (decoder : TextDecoder) (buffer : jsstring)
    (pending : list (list byte)) : list Value :=
  match pending with
  | [] => []
  | value :: rest =>
      let text := buffer ++ snd (decode_stream decoder value) in
      let decoder' := fst (decode_stream decoder value) in
      match JSON_parse text with
      | None | Some VNull | Some VUndefined => parsedDocuments decoder' text rest
      | Some doc => doc :: parsedDocuments decoder' [] rest
      end
  end.

(** The whole document of a JSON response: its body, when it arrives to
    the end and is a JSON text for a value other than null. *)
Definition jsonDocument (r : Response) : list Value :=
  match body r with
  | None => []
  | Some b =>
      match ending b with
      | Errored _ => []
      | Closed =>
          match JSON_parse (utf8_decode (List.concat (chunks b))) with
          | None | Some VNull | Some VUndefined => []
          | Some doc => [doc]
          end
      end
  end.

(** The whole documents of an answer of the network: none when the fetch
    rejects or the response is not [ok]. *)
Definition wholeDocuments (fr : FetchResult) : list Value :=
  match fr with
  | Rejected _ => []
  | Fulfilled r =>
      if negb (ok r) then []
      else if useApiStream.isJsonContentType r then jsonDocument r
      else match body r with
           | Some b => parsedDocuments newTextDecoder [] (chunks b)
           | None => []
           end
  end.

Definition onJsonPath (fr : FetchResult) : bool :=
  match fr with
  | Rejected _ => false
  | Fulfilled r => useApiStream.isJsonContentType r
  end.

(** The values [sources] is to be assigned, in order: the [sources]
    property of each whole document, as it is on the JSON path, and only
    when truthy on the streaming path. *)
Definition sourcesAssigned (fr : FetchResult) : list Value :=
  if onJsonPath fr then map sourcesOf (wholeDocuments fr)
  else filter toBoolean (map sourcesOf (wholeDocuments fr)).

(** The answer on display once the chunks [pending] of a streamed body
    have been read, [shown] being on display before: each chunk shows the
    [answer] property of the accumulated text when it is a JSON text for
    a value other than null (and accumulation restarts), the accumulated
    text itself otherwise. *)
Fixpoint shownAfter (decoder : TextDecoder) (buffer : jsstring)
    (pending : list (list byte)) (shown : Value) : Value :=
  match pending with
  | [] => shown
  | value :: rest =>
      let text := buffer ++ snd (decode_stream decoder value) in
      let decoder' := fst (decode_stream decoder value) in
      match JSON_parse text with
      | None | Some VNull | Some VUndefined =>
          shownAfter decoder' text rest (VString text)
      | Some doc =>
          shownAfter decoder' [] rest (propertyOf doc (js "answer"))
      end
  end.

(** The partial answer a failed run is to leave on display: the empty
    text, unless chunks of a streamed body were read before the failure;
    then what they showed. *)
Definition partialAnswer (fr : FetchResult) : Value :=
  match fr with
  | Rejected _ => VString []
  | Fulfilled r =>
      if ok r && negb (useApiStream.isJsonContentType r) then
        match body r with
        | Some b => shownAfter newTextDecoder [] (chunks b) (VString [])
        | None => VString []
        end
      else VString []
  end.

Definition isAscii (b : byte) : bool := Byte.to_N b <=? 0x7F.

(** ** The documents of the specification's test cases *)

Definition answerDocument : list byte :=
  bytesq "{'answer':'A','sources':[],'query':'q','timestamp':'t'}".

Definition finalDocument : list byte :=
  bytesq "{'answer':'final','sources':[{'title':'T','url':'u','source_type':'github','relevance_score':0.5,'snippet':'s'}],'query':'q','timestamp':'t'}".

Definition finalCitation : Value :=
  VObject [ (js "title", VString (js "T"));
            (js "url", VString (js "u"));
            (js "source_type", VString (js "github"));
            (js "relevance_score", VNumber half);
            (js "snippet", VString (js "s")) ].

Definition ascii_bytes (s : string) : list byte := list_byte_of_string s.

(** What [JSON.parse] makes of the two documents. *)
Definition answerValue : Value :=
  VObject [ (js "answer", VString (js "A"));
            (js "sources", VArray []);
            (js "query", VString (js "q"));
            (js "timestamp", VString (js "t")) ].

Definition finalValue : Value :=
  VObject [ (js "answer", VString (js "final"));
            (js "sources", VArray [finalCitation]);
            (js "query", VString (js "q"));
            (js "timestamp", VString (js "t")) ].

Definition finalText : jsstring := map Byte.to_N finalDocument.

Definition helloChunks : list (list byte) :=
  [ascii_bytes "Hel"; ascii_bytes "lo wor"; ascii_bytes "ld"].

(** An engine and a network to run the hook on. *)
Definition anySyntaxErrorMessage (text : jsstring) : jsstring :=
  js "Unexpected end of JSON input".

Definition anyTypeErrorMessage (v : Value) (k : jsstring) : jsstring :=
  js "Cannot read properties of null".

Definition answering (r : Response) (endpoint : jsstring) (request : ApiQueryRequest)
  : FetchResult := Fulfilled r.

Definition someRequest : ApiQueryRequest := mkRequest (js "what is VaultIQ") None None.

Definition textPlain : option jsstring := Some (js "text/plain").

(** [query] run on that engine against a network that answers [r]. *)
Definition demoQuery (r : Response) : M unit :=
  useApiStream.query anySyntaxErrorMessage anyTypeErrorMessage None
    (answering r) someRequest.

Definition demoQueryBody (r : Response) : M unit :=
  useApiStream.queryBody anySyntaxErrorMessage anyTypeErrorMessage None
    (answering r) someRequest.

Definition demoLoopState (pending : list (list byte)) : TextDecoder * jsstring :=
  useApiStream.loopState anySyntaxErrorMessage anyTypeErrorMessage
    newTextDecoder [] pending.

Definition demoBufferAt (before : list (list byte)) (value : list byte) : jsstring :=
  useApiStream.bufferAt anySyntaxErrorMessage anyTypeErrorMessage before value.

Definition demoEndpoint : jsstring := js "/api/query".

(** A streamed response that closes after [cs], and one whose reader
    fails after [cs]. *)
Definition streamed (cs : list (list byte)) : Response :=
  mkResponse true (js "OK") textPlain (Some (mkBody cs Closed)).

Definition interrupted (cs : list (list byte)) : Response :=
  mkResponse true (js "OK") textPlain
    (Some (mkBody cs (Errored (OtherThrown VNull)))).

Definition jsonResponse (cs : list (list byte)) : Response :=
  mkResponse true (js "OK") (Some (js "application/json"))
    (Some (mkBody cs Closed)).

Definition serverError : Response :=
  mkResponse false (js "Internal Server Error") textPlain
    (Some (mkBody [ascii_bytes "oops"] Closed)).

Definition emptyResponse : Response :=
  mkResponse true (js "OK") None None.

(** The document cut after its 40th byte. *)
Definition finalInTwo : list (list byte) :=
  [firstn 40 finalDocument; skipn 40 finalDocument].

(** ** More observations of a run *)

Definition isFetch (ev : Event) : bool :=
  match ev with Fetch _ _ => true | _ => false end.

Definition isSetIsLoading (ev : Event) : bool :=
  match ev with SetIsLoading _ => true | _ => false end.

Definition isSetError (ev : Event) : bool :=
  match ev with SetError _ => true | _ => false end.

(** What the [try] of the loop body hands to [setAnswer] when the
    accumulated buffer is [text] (lines 90-102): the [answer] property of
    the parsed value, or the text itself when the parse, or the read of
    the property (on null), throws. *)
Definition shownFor (text : jsstring) : Value :=
  match JSON_parse text with
  | None | Some VNull | Some VUndefined => VString text
  | Some doc => propertyOf doc (js "answer")
  end.

(** The text a fresh streaming decoder makes of [bs]. *)
Definition decoded (bs : list byte) : jsstring :=
  snd (decode_stream newTextDecoder bs).

Definition isReaderRead (ev : Event) : bool :=
  match ev with ReaderRead => true | _ => false end.

Definition isGetReader (ev : Event) : bool :=
  match ev with GetReader => true | _ => false end.

Definition isResponseJson (ev : Event) : bool :=
  match ev with ResponseJson => true | _ => false end.

Definition isSetAnswer (ev : Event) : bool :=
  match ev with SetAnswer _ => true | _ => false end.

Definition count (p : Event -> bool) (t : list Event) : nat :=
  List.length (filter p t).

(** The bytes do not stop in the middle of a character: a fresh decoder
    that has read them awaits no continuation byte. *)
Definition endsComplete (bs : list byte) : bool :=
  needed (utf8 (fst (decode_stream newTextDecoder bs))) =? 0.

(** The events of the [try] block of [query] after the fetch: setters of
    the answer and the sources, reads of the body, console output. *)
Definition isBodyPhaseEvent (ev : Event) : bool :=
  match ev with
  | SetAnswer _ | SetSources _ | ResponseJson | GetReader | ReaderRead
  | ConsoleError _ _ => true
  | SetIsLoading _ | SetError _ | Fetch _ _ => false
  end.

(** The text a fresh streaming decoder has made of the first [n] chunks
    of [cs], and whether none of these texts, for one chunk or more, is a
    JSON text. *)
Definition textAfter (cs : list (list byte)) (n : nat) : jsstring :=
  decoded (List.concat (firstn n cs)).

Definition neverParses (cs : list (list byte)) : bool :=
  forallb
    (fun n => match JSON_parse (textAfter cs (S n)) with
              | None => true
              | Some _ => false
              end)
    (seq 0 (List.length cs)).

(** The state [query] has reached once its four clearing calls are done. *)
Definition clearedState : State := mkState (VString []) (VArray []) true None.

(** A string that does not begin, or does not end, with a character
    [trim] strips. *)
Definition startsClean (s : jsstring) : bool :=
  match s with
  | c :: _ => negb (isTrimmable c)
  | [] => true
  end.

Definition endsClean (s : jsstring) : bool := startsClean (rev s).

(** ** The search bar ([components/SearchBar.tsx])

    What a submit of the form does: it always cancels the browser's own
    submit, and it calls [onSubmit] or not. *)

Module SearchBar.

Inductive FormEffect : Type :=
| PreventDefault
| OnSubmit (query : jsstring).

(** [handleSubmit] (lines 11-16), for the [isLoading] prop and the
    [query] state of the render the handler belongs to. *)
Definition handleSubmit (isLoading : bool) (query : jsstring) : list FormEffect :=
  PreventDefault ::
  (if toBoolean (VString (trim query)) && negb isLoading
   then [OnSubmit (trim query)]
   else []).

(** The [disabled] attribute of the submit button (line 44). *)
Definition submitDisabled (isLoading : bool) (query : jsstring) : bool :=
  isLoading || negb (toBoolean (VString (trim query))).

End SearchBar.

(** ** The application ([app.tsx]) *)

Module App.

Section Platform.

Variable syntaxErrorMessage : jsstring -> jsstring.
Variable typeErrorMessage : Value -> jsstring -> jsstring.
Variable VITE_API_URL : option jsstring.
Variable network : jsstring -> ApiQueryRequest -> FetchResult.

(** [handleSearch] (lines 10-19). *)
Definition handleSearch (queryText : jsstring) : M unit :=
  useApiStream.reset ;;
  useApiStream.query syntaxErrorMessage typeErrorMessage VITE_API_URL network
    (mkRequest queryText (Some (5 # 1)) None).

(** A submit of the search bar as the application wires it (line 25):
    [isLoading] is the hook's state, [onSubmit] is [handleSearch]. *)
Definition submit (st : State) (input : jsstring) : list Event :=
  flat_map
    (fun e =>
       match e with
       | SearchBar.PreventDefault => []
       | SearchBar.OnSubmit q => trace (handleSearch q)
       end)
    (SearchBar.handleSubmit (isLoading st) input).

End Platform.

(** The conditions under which the error panel (line 28), the spinner
    (line 65) and the welcome panel (line 107) are rendered. *)
Definition errorTruthy (st : State) : bool :=
  match error st with
  | Some message => toBoolean (VString message)
  | None => false
  end.

Definition showsError (st : State) : bool := errorTruthy st.

Definition showsSpinner (st : State) : bool :=
  isLoading st && negb (toBoolean (answer st)).

Definition showsWelcome (st : State) : bool :=
  negb (toBoolean (answer st)) && negb (isLoading st) && negb (errorTruthy st).

End App.

(** ** More runs to try the hook on *)

(** A network whose [fetch] rejects with [e]. *)
Definition failing (e : Thrown) (endpoint : jsstring) (request : ApiQueryRequest)
  : FetchResult := Rejected e.

Definition demoFailedQuery (e : Thrown) : M unit :=
  useApiStream.query anySyntaxErrorMessage anyTypeErrorMessage None
    (failing e) someRequest.

(** A network that answers [r1] to requests without [top_k] and [r2] to
    the others. *)
Definition twoWay (r1 r2 : Response) (endpoint : jsstring)
    (request : ApiQueryRequest) : FetchResult :=
  match req_top_k request with
  | None => Fulfilled r1
  | Some _ => Fulfilled r2
  end.

Definition otherRequest : ApiQueryRequest :=
  mkRequest (js "what is VaultIQ") (Some (5 # 1)) None.

Definition demoTwoWayQuery (r1 r2 : Response) (request : ApiQueryRequest) : M unit :=
  useApiStream.query anySyntaxErrorMessage anyTypeErrorMessage None
    (twoWay r1 r2) request.

Definition demoSubmit (r : Response) (st : State) (input : jsstring) : list Event :=
  App.submit anySyntaxErrorMessage anyTypeErrorMessage None (answering r) st input.

Definition demoHandleSearch (r : Response) (queryText : jsstring) : M unit :=
  App.handleSearch anySyntaxErrorMessage anyTypeErrorMessage None (answering r)
    queryText.

(** "caf\u00e9 ol", the two bytes of the e-acute in different chunks. *)
Definition cafeChunks : list (list byte) :=
  [ascii_bytes "caf" ++ [xc3]; [xa9] ++ ascii_bytes " ol"].

(** A document with an answer and no sources. *)
Definition bareDocument : list byte := bytesq "{'answer':'A'}".

Definition bareValue : Value := VObject [(js "answer", VString (js "A"))].

Definition lineFeed : list byte := [x0a].

(** A state with an error on display. *)
Definition failedState : State :=
  mkState (VString []) (VArray []) false (Some (js "No response body received")).

(** * Properties *)

(** ** The platform model *)

Lemma jsstring_eqb_eq a b : jsstring_eqb a b = true <-> a = b.
Proof.
  unfold jsstring_eqb. destruct (list_eq_dec N.eq_dec a b); split; congruence.
Qed.

(** What the scanner and the recogniser refuse. *)
Example JSON_parse_rejects :
  map JSON_parse
    [ js ""; js " "; js "{"; js "[1,]"; js "01"; js "1."; js "-"; js "tru";
      js "1 2"; jsq "{'a':1,}"; jsq "{'a' 1}"; jsq "'a"; jsq "'\x'";
      js "[}"; js ".5"; js "+1"; js "nulll" ]
  = repeat None 17.
Proof. vm_compute. reflexivity. Qed.

Example JSON_parse_scalars :
  map JSON_parse [ js "42"; js " -0.0e3 "; jsq "'\u0041\n'"; js "true"; js "null"; js "[]" ]
  = [ Some (VNumber (42 # 1)); Some (VNumber (0 # 1));
      Some (VString [65; 10]); Some (VBool true); Some VNull; Some (VArray []) ].
Proof. vm_compute. reflexivity. Qed.

(** A euro sign cut between two chunks comes out once it is complete;
    a byte order mark at the start is dropped; a stray continuation byte
    is replaced. *)
Example decode_stream_split :
  let '(d1, s1) := decode_stream newTextDecoder [xef; xbb; xbf; x41; xe2; x82] in
  let '(d2, s2) := decode_stream d1 [xac; x80; x42] in
  (s1, s2) = ([65], [0x20AC; 0xFFFD; 66]).
Proof. vm_compute. reflexivity. Qed.

(** Escapes, nesting, numbers, and a repeated key. *)
Example JSON_parse_doc :
  JSON_parse (jsq "{'a': [1, -2.50e1, true, null, 'xA\n'], 'b': {}, 'a': 0.5}")
  = Some (VObject [(js "a", VNumber half); (js "b", VObject [])]).
Proof. vm_compute. reflexivity. Qed.

Lemma isPrefixOf_refl s : isPrefixOf s s = true.
Proof.
  induction s as [|c s IH]; simpl; [reflexivity|].
  now rewrite N.eqb_refl, IH.
Qed.

(** A string includes each of its suffixes. *)
Lemma includes_suffix p s : includes (p ++ s) s = true.
Proof.
  induction p as [|c p IH]; simpl.
  - destruct s; simpl; [reflexivity|].
    now rewrite N.eqb_refl, isPrefixOf_refl.
  - rewrite IH. apply orb_true_r.
Qed.

(** ** Runs and states *)

Lemma run_app st t1 t2 : run st (t1 ++ t2) = run (run st t1) t2.
Proof. unfold run. apply fold_left_app. Qed.

Lemma run_cons st ev t : run st (ev :: t) = run (apply_event st ev) t.
Proof. reflexivity. Qed.

Lemma bind_normal {A B} (m : M A) (k : A -> M B) t a :
  m = (t, Normal a) ->
  bind m k = (t ++ trace (k a), completion (k a)).
Proof. intros ->. unfold bind, trace, completion. now destruct (k a). Qed.

Section HookProperties.

Variable syntaxErrorMessage : jsstring -> jsstring.
Variable typeErrorMessage : Value -> jsstring -> jsstring.
Variable VITE_API_URL : option jsstring.
Variable network : jsstring -> ApiQueryRequest -> FetchResult.

Local Notation jsonParse := (useApiStream.jsonParse syntaxErrorMessage).
Local Notation getProp := (useApiStream.getProp typeErrorMessage).
Local Notation processChunk := (useApiStream.processChunk syntaxErrorMessage typeErrorMessage).
Local Notation finishStream := (useApiStream.finishStream syntaxErrorMessage typeErrorMessage).
Local Notation readLoop := (useApiStream.readLoop syntaxErrorMessage typeErrorMessage).
Local Notation readStream := (useApiStream.readStream syntaxErrorMessage typeErrorMessage).
Local Notation responseJson := (useApiStream.responseJson syntaxErrorMessage).
Local Notation handleResponse := (useApiStream.handleResponse syntaxErrorMessage typeErrorMessage).
Local Notation queryBody :=
  (useApiStream.queryBody syntaxErrorMessage typeErrorMessage VITE_API_URL network).
Local Notation query :=
  (useApiStream.query syntaxErrorMessage typeErrorMessage VITE_API_URL network).
Local Notation readLoop_noReparse :=
  (useApiStream.readLoop_noReparse syntaxErrorMessage typeErrorMessage).
Local Notation query_noReparse :=
  (useApiStream.query_noReparse syntaxErrorMessage typeErrorMessage VITE_API_URL network).
Local Notation endpoint := (useApiStream.apiUrl VITE_API_URL ++ js "/api/query").
Local Notation loopState := (useApiStream.loopState syntaxErrorMessage typeErrorMessage).
Local Notation bufferAt := (useApiStream.bufferAt syntaxErrorMessage typeErrorMessage).
Local Notation bufferHistory :=
  (useApiStream.bufferHistory syntaxErrorMessage typeErrorMessage).

(** *** The shape of a run of [query] *)

Lemma queryBody_fulfilled request r :
  network endpoint request = Fulfilled r ->
  queryBody request =
    (Fetch endpoint request :: trace (handleResponse r),
     completion (handleResponse r)).
Proof.
  intros H. unfold useApiStream.queryBody, useApiStream.doFetch. rewrite H.
  unfold bind, emit, ret, trace, completion. simpl.
  now destruct (handleResponse r).
Qed.

Lemma queryBody_rejected request e :
  network endpoint request = Rejected e ->
  queryBody request = ([Fetch endpoint request], Abrupt e).
Proof.
  intros H. unfold useApiStream.queryBody, useApiStream.doFetch. now rewrite H.
Qed.

Lemma query_normal request t :
  queryBody request = (t, Normal tt) ->
  query request = (trace useApiStream.queryStart ++ t ++ [SetIsLoading false], Normal tt).
Proof.
  intros H. unfold useApiStream.query. now rewrite H.
Qed.

Lemma query_abrupt request t e :
  queryBody request = (t, Abrupt e) ->
  query request =
    (trace useApiStream.queryStart ++ t ++
       [SetError (Some (useApiStream.errorMessageOf e));
        ConsoleError (js "API query error:") e;
        SetIsLoading false],
     Normal tt).
Proof.
  intros H. unfold useApiStream.query. rewrite H. simpl.
  now rewrite <- app_assoc.
Qed.

(** The promise [query] returns is never rejected. *)
Lemma query_resolves request : completion (query request) = Normal tt.
Proof.
  destruct (queryBody request) as [t [[]|e]] eqn:H.
  - now rewrite (query_normal _ _ H).
  - now rewrite (query_abrupt _ _ _ H).
Qed.

(** [query] begins with its four setter calls. *)
Lemma query_starts request :
  exists t, trace (query request) = trace useApiStream.queryStart ++ t.
Proof.
  destruct (queryBody request) as [t [[]|e]] eqn:H.
  - rewrite (query_normal _ _ H). now eexists.
  - rewrite (query_abrupt _ _ _ H). now eexists.
Qed.

(** *** One chunk *)

Lemma processChunk_parse_fails decoder buffer value :
  JSON_parse (buffer ++ snd (decode_stream decoder value)) = None ->
  processChunk decoder buffer value =
    ([SetAnswer (VString (buffer ++ snd (decode_stream decoder value)))],
     Normal (fst (decode_stream decoder value),
             buffer ++ snd (decode_stream decoder value))).
Proof.
  intros H. unfold useApiStream.processChunk.
  destruct (decode_stream decoder value) as [d' chunk]. simpl in *.
  unfold useApiStream.jsonParse. now rewrite H.
Qed.

Lemma processChunk_parse_null decoder buffer value v :
  JSON_parse (buffer ++ snd (decode_stream decoder value)) = Some v ->
  v = VNull \/ v = VUndefined ->
  processChunk decoder buffer value =
    ([SetAnswer (VString (buffer ++ snd (decode_stream decoder value)))],
     Normal (fst (decode_stream decoder value),
             buffer ++ snd (decode_stream decoder value))).
Proof.
  intros H Hv. unfold useApiStream.processChunk.
  destruct (decode_stream decoder value) as [d' chunk]. simpl in *.
  unfold useApiStream.jsonParse. rewrite H.
  now destruct Hv as [-> | ->].
Qed.

Lemma getProp_defined v k :
  v <> VNull -> v <> VUndefined -> getProp v k = ret (propertyOf v k).
Proof. destruct v; simpl; congruence. Qed.

Lemma processChunk_parse_ok decoder buffer value v :
  JSON_parse (buffer ++ snd (decode_stream decoder value)) = Some v ->
  v <> VNull -> v <> VUndefined ->
  processChunk decoder buffer value =
    (SetAnswer (propertyOf v (js "answer")) ::
       (if toBoolean (propertyOf v (js "sources"))
        then [SetSources (propertyOf v (js "sources"))] else []),
     Normal (fst (decode_stream decoder value), [])).
Proof.
  intros H Hn Hu. unfold useApiStream.processChunk.
  destruct (decode_stream decoder value) as [d' chunk]. simpl in *.
  unfold useApiStream.jsonParse. rewrite H.
  rewrite bind_normal with (t := []) (a := v) by reflexivity.
  rewrite !getProp_defined by assumption.
  unfold useApiStream.when, bind, ret, emit, tryCatch, trace, completion. simpl.
  now destruct (toBoolean (propertyOf v (js "sources"))).
Qed.

(** The three ways a chunk can go. *)
Lemma processChunk_cases decoder buffer value :
  let buffer' := buffer ++ snd (decode_stream decoder value) in
  let decoder' := fst (decode_stream decoder value) in
  (processChunk decoder buffer value =
     ([SetAnswer (VString buffer')], Normal (decoder', buffer')) /\
   (JSON_parse buffer' = None \/ JSON_parse buffer' = Some VNull \/
    JSON_parse buffer' = Some VUndefined)) \/
  (exists v, JSON_parse buffer' = Some v /\ v <> VNull /\ v <> VUndefined /\
     processChunk decoder buffer value =
       (SetAnswer (propertyOf v (js "answer")) ::
          (if toBoolean (propertyOf v (js "sources"))
           then [SetSources (propertyOf v (js "sources"))] else []),
        Normal (decoder', []))).
Proof.
  intros buffer' decoder'.
  destruct (JSON_parse buffer') as [v|] eqn:H.
  - destruct v; try (right; eexists; split; [reflexivity|];
      split; [discriminate|]; split; [discriminate|];
      apply processChunk_parse_ok; [exact H|discriminate|discriminate]).
    + left. split; [|auto]. eapply processChunk_parse_null; [exact H|auto].
    + left. split; [|auto]. eapply processChunk_parse_null; [exact H|auto].
  - left. split; [|auto]. now apply processChunk_parse_fails.
Qed.

(** *** The end of the stream *)

Lemma finishStream_empty : finishStream [] = ret tt.
Proof. reflexivity. Qed.

(** A buffer that the loop kept is one whose parse, or whose property
    read, threw; at the end of the stream it throws again. *)
Lemma finishStream_unparsed buffer :
  JSON_parse buffer = None \/ JSON_parse buffer = Some VNull \/
  JSON_parse buffer = Some VUndefined ->
  finishStream buffer = ret tt.
Proof.
  intros H. unfold useApiStream.finishStream, useApiStream.when.
  destruct (toBoolean (VString (trim buffer))); [|reflexivity].
  unfold useApiStream.jsonParse.
  destruct H as [-> | [-> | ->]]; reflexivity.
Qed.

Lemma finishStream_normal buffer : completion (finishStream buffer) = Normal tt.
Proof.
  unfold useApiStream.finishStream, useApiStream.when.
  destruct (toBoolean (VString (trim buffer))); [|reflexivity].
  unfold useApiStream.jsonParse.
  destruct (JSON_parse buffer) as [v|]; [|reflexivity].
  destruct v; simpl; try reflexivity;
    match goal with |- context [toBoolean ?s] => now destruct (toBoolean s) end.
Qed.

Lemma processChunk_settles decoder buffer value :
  exists t decoder' buffer',
    processChunk decoder buffer value = (t, Normal (decoder', buffer')) /\
    finishStream buffer' = ret tt.
Proof.
  destruct (processChunk_cases decoder buffer value) as [[E H] | (v & _ & _ & _ & E)].
  - do 3 eexists. split; [exact E|]. now apply finishStream_unparsed.
  - do 3 eexists. split; [exact E|]. apply finishStream_empty.
Qed.

(** *** The loop *)

Lemma bind_emit {A} ev (m : M A) :
  bind (emit ev) (fun _ => m) = (ev :: trace m, completion m).
Proof. unfold bind, emit, trace, completion. now destruct m. Qed.

Lemma readLoop_nil decoder buffer fin :
  readLoop decoder buffer [] fin =
    bind (emit ReaderRead) (fun _ =>
      match fin with
      | Closed => finishStream buffer
      | Errored e => throw e
      end).
Proof. reflexivity. Qed.

Lemma readLoop_cons decoder buffer value rest fin :
  readLoop decoder buffer (value :: rest) fin =
    bind (emit ReaderRead) (fun _ =>
      bind (processChunk decoder buffer value) (fun db =>
        readLoop (fst db) (snd db) rest fin)).
Proof. reflexivity. Qed.

Lemma readLoop_step decoder buffer value rest fin t decoder' buffer' :
  processChunk decoder buffer value = (t, Normal (decoder', buffer')) ->
  readLoop decoder buffer (value :: rest) fin =
    (ReaderRead :: t ++ trace (readLoop decoder' buffer' rest fin),
     completion (readLoop decoder' buffer' rest fin)).
Proof.
  intros E. rewrite readLoop_cons, bind_emit.
  now rewrite (bind_normal _ _ _ _ E).
Qed.

Lemma readLoop_noReparse_step decoder buffer value rest fin t decoder' buffer' :
  processChunk decoder buffer value = (t, Normal (decoder', buffer')) ->
  readLoop_noReparse decoder buffer (value :: rest) fin =
    (ReaderRead :: t ++ trace (readLoop_noReparse decoder' buffer' rest fin),
     completion (readLoop_noReparse decoder' buffer' rest fin)).
Proof.
  intros E.
  change (readLoop_noReparse decoder buffer (value :: rest) fin)
    with (bind (emit ReaderRead) (fun _ =>
            bind (processChunk decoder buffer value) (fun db =>
              readLoop_noReparse (fst db) (snd db) rest fin))).
  rewrite bind_emit. now rewrite (bind_normal _ _ _ _ E).
Qed.

(** From a buffer on which the end-of-stream parse does nothing, the two
    loops do the same. *)
Lemma readLoop_noReparse_eq pending :
  forall decoder buffer fin,
    finishStream buffer = ret tt ->
    readLoop decoder buffer pending fin =
    readLoop_noReparse decoder buffer pending fin.
Proof.
  induction pending as [|value rest IH]; intros decoder buffer fin Hb.
  - rewrite readLoop_nil. simpl. destruct fin; [now rewrite Hb|reflexivity].
  - destruct (processChunk_settles decoder buffer value)
      as (t & decoder' & buffer' & E & Hb').
    rewrite (readLoop_step _ _ _ _ _ _ _ _ E).
    rewrite (readLoop_noReparse_step _ _ _ _ _ _ _ _ E).
    now rewrite (IH decoder' buffer' fin Hb').
Qed.

(** A read that rejects ends the loop with what was thrown; a stream that
    closes ends it normally. *)
Lemma readLoop_completion pending :
  forall decoder buffer fin,
    completion (readLoop decoder buffer pending fin) =
    match fin with Closed => Normal tt | Errored e => Abrupt e end.
Proof.
  induction pending as [|value rest IH]; intros decoder buffer fin.
  - rewrite readLoop_nil, bind_emit. simpl.
    destruct fin; [apply finishStream_normal|reflexivity].
  - destruct (processChunk_settles decoder buffer value)
      as (t & decoder' & buffer' & E & _).
    rewrite (readLoop_step _ _ _ _ _ _ _ _ E). simpl. apply IH.
Qed.

(** *** Where errors arise *)

Lemma handleResponse_not_ok r :
  ok r = false ->
  handleResponse r =
    throw (ErrorObject (js "API request failed: " ++ statusText r)).
Proof. intros H. unfold useApiStream.handleResponse. now rewrite H. Qed.

Lemma handleResponse_no_body r :
  ok r = true -> useApiStream.isJsonContentType r = false -> body r = None ->
  handleResponse r = throw (ErrorObject (js "No response body received")).
Proof.
  intros H1 H2 H3. unfold useApiStream.handleResponse. now rewrite H1, H2, H3.
Qed.

Lemma handleResponse_stream r b :
  ok r = true -> useApiStream.isJsonContentType r = false -> body r = Some b ->
  handleResponse r = readStream b.
Proof.
  intros H1 H2 H3. unfold useApiStream.handleResponse. now rewrite H1, H2, H3.
Qed.

Lemma readStream_closed b :
  ending b = Closed ->
  readStream b =
    (GetReader :: trace (readLoop newTextDecoder [] (chunks b) Closed), Normal tt).
Proof.
  intros H. unfold useApiStream.readStream. rewrite H, bind_emit.
  pose proof (readLoop_completion (chunks b) newTextDecoder [] Closed) as C.
  destruct (readLoop newTextDecoder [] (chunks b) Closed) as [t c].
  simpl in *. now subst c.
Qed.

Lemma readStream_errored b e :
  ending b = Errored e ->
  readStream b =
    (GetReader :: trace (readLoop newTextDecoder [] (chunks b) (Errored e)) ++
       [ConsoleError (js "Stream reading error:") e],
     Abrupt (ErrorObject (js "Failed to read streaming response"))).
Proof.
  intros H. unfold useApiStream.readStream. rewrite H, bind_emit.
  pose proof (readLoop_completion (chunks b) newTextDecoder [] (Errored e)) as C.
  destruct (readLoop newTextDecoder [] (chunks b) (Errored e)) as [t c].
  simpl in *. now subst c.
Qed.

(** ** [reset] *)

(** C8.  From every state, [reset] leaves [answer] the empty string,
    [sources] the empty array and [error] null, leaves [isLoading] as it
    was, completes normally, touches neither the network nor a response
    body, and a second [reset] changes nothing more. *)
Theorem reset_frame (st : State) :
  let st' := run st (trace useApiStream.reset) in
  answer st' = VString [] /\
  sources st' = VArray [] /\
  error st' = None /\
  isLoading st' = isLoading st /\
  completion useApiStream.reset = Normal tt /\
  existsb isNetworkEvent (trace useApiStream.reset) = false /\
  run st' (trace useApiStream.reset) = st'.
Proof. destruct st. repeat split. Qed.

(** ** Failures *)

Lemma query_trace_abrupt request r e :
  network endpoint request = Fulfilled r ->
  handleResponse r = throw e ->
  trace (query request) =
    [SetIsLoading true; SetError None; SetAnswer (VString []);
     SetSources (VArray []); Fetch endpoint request;
     SetError (Some (useApiStream.errorMessageOf e));
     ConsoleError (js "API query error:") e; SetIsLoading false].
Proof.
  intros Hn Hr.
  pose proof (queryBody_fulfilled _ _ Hn) as Hb. rewrite Hr in Hb.
  now rewrite (query_abrupt _ _ _ Hb).
Qed.

(** C6.  When the response is not [ok], [query] sets [error] to
    "API request failed: " followed by the status text (so the message
    contains the status text), ends with [isLoading] false and [answer]
    the empty string, and performs no effect on the response body: its
    effects are the four clearing calls, the fetch, [setError],
    [console.error] and [setIsLoading(false)], whatever the body is. *)
Theorem non_success_status request st0 r :
  network endpoint request = Fulfilled r ->
  ok r = false ->
  let message := js "API request failed: " ++ statusText r in
  let final := run st0 (trace (query request)) in
  error final = Some message /\
  includes message (statusText r) = true /\
  isLoading final = false /\
  answer final = VString [] /\
  existsb isBodyEvent (trace (query request)) = false /\
  trace (query request) =
    [SetIsLoading true; SetError None; SetAnswer (VString []);
     SetSources (VArray []); Fetch endpoint request;
     SetError (Some message);
     ConsoleError (js "API query error:") (ErrorObject message);
     SetIsLoading false].
Proof.
  intros Hn Hok message final. subst final.
  rewrite (query_trace_abrupt _ _ _ Hn (handleResponse_not_ok _ Hok)).
  repeat split. apply includes_suffix.
Qed.

(** C7.  When the response is [ok], its content type is absent or does
    not include application/json, and it has no body, [query] sets
    [error] to "No response body received" and ends with [isLoading]
    false. *)
Theorem empty_success_body request st0 r :
  network endpoint request = Fulfilled r ->
  ok r = true ->
  useApiStream.isJsonContentType r = false ->
  body r = None ->
  let final := run st0 (trace (query request)) in
  error final = Some (js "No response body received") /\
  isLoading final = false.
Proof.
  intros Hn Hok Hct Hb final. subst final.
  rewrite (query_trace_abrupt _ _ _ Hn (handleResponse_no_body _ Hok Hct Hb)).
  split; reflexivity.
Qed.

(** The three failures the specification names do make the [try] block
    of [query] throw. *)
Lemma queryBody_throws request r :
  network endpoint request = Fulfilled r ->
  ok r = false \/
  (ok r = true /\ useApiStream.isJsonContentType r = false /\ body r = None) \/
  (exists b e, ok r = true /\ useApiStream.isJsonContentType r = false /\
     body r = Some b /\ ending b = Errored e) ->
  exists e, completion (queryBody request) = Abrupt e.
Proof.
  intros Hn H. rewrite (queryBody_fulfilled _ _ Hn). simpl.
  destruct H as [H | [(H1 & H2 & H3) | (b & e & H1 & H2 & H3 & H4)]].
  - rewrite (handleResponse_not_ok _ H). now eexists.
  - rewrite (handleResponse_no_body _ H1 H2 H3). now eexists.
  - rewrite (handleResponse_stream _ _ H1 H2 H3), (readStream_errored _ _ H4).
    now eexists.
Qed.

(** ** The parse at the end of the stream *)

Lemma handleResponse_noReparse_eq r :
  handleResponse r =
  useApiStream.handleResponse_noReparse syntaxErrorMessage typeErrorMessage r.
Proof.
  unfold useApiStream.handleResponse, useApiStream.handleResponse_noReparse.
  destruct (negb (ok r)); [reflexivity|].
  destruct (useApiStream.isJsonContentType r); [reflexivity|].
  destruct (body r) as [b|]; [|reflexivity].
  unfold useApiStream.readStream, useApiStream.readStream_noReparse.
  now rewrite (readLoop_noReparse_eq _ _ _ _ finishStream_empty).
Qed.

(** C9.  The parse in the [done] branch never changes anything: [query]
    and [query] without that parse perform the same effects and complete
    alike, for every request and every answer of the network. *)
Theorem final_reparse_is_idle request :
  query request = query_noReparse request.
Proof.
  unfold useApiStream.query, useApiStream.query_noReparse,
    useApiStream.queryBody, useApiStream.doFetch.
  destruct (network endpoint request) as [e|r]; [reflexivity|].
  rewrite !bind_emit. simpl.
  now rewrite handleResponse_noReparse_eq.
Qed.

(** ** Responses that stream and close *)

Lemma query_stream_closed request r b :
  network endpoint request = Fulfilled r ->
  ok r = true ->
  useApiStream.isJsonContentType r = false ->
  body r = Some b ->
  ending b = Closed ->
  query request =
    (trace useApiStream.queryStart ++
       Fetch endpoint request :: GetReader ::
       trace (readLoop newTextDecoder [] (chunks b) Closed) ++
       [SetIsLoading false],
     Normal tt).
Proof.
  intros Hn Hok Hct Hb He.
  pose proof (queryBody_fulfilled _ _ Hn) as Hq.
  rewrite (handleResponse_stream _ _ Hok Hct Hb), (readStream_closed _ He) in Hq.
  now rewrite (query_normal _ _ Hq).
Qed.

Lemma JSON_parse_answerDocument :
  JSON_parse (utf8_decode answerDocument) = Some answerValue.
Proof. vm_compute. reflexivity. Qed.

(** C3.  For an [ok] response whose content type includes
    application/json and whose body, however it is split into chunks, is
    the document with answer "A" and no sources, [query] ends with
    [answer] "A", [sources] the empty array, [error] null and
    [isLoading] false, and completes normally. *)
Theorem json_round_trip request st0 r b :
  network endpoint request = Fulfilled r ->
  ok r = true ->
  useApiStream.isJsonContentType r = true ->
  body r = Some b ->
  ending b = Closed ->
  List.concat (chunks b) = answerDocument ->
  let final := run st0 (trace (query request)) in
  answer final = VString (js "A") /\
  sources final = VArray [] /\
  error final = None /\
  isLoading final = false /\
  completion (query request) = Normal tt.
Proof.
  intros Hn Hok Hct Hb He Hd final. subst final.
  assert (Hr : handleResponse r =
                 ([ResponseJson; SetAnswer (VString (js "A")); SetSources (VArray [])],
                  Normal tt)).
  { unfold useApiStream.handleResponse, useApiStream.responseJson.
    rewrite Hok, Hct, Hb, He, Hd. simpl negb. cbv iota.
    unfold useApiStream.jsonParse. rewrite JSON_parse_answerDocument.
    reflexivity. }
  pose proof (queryBody_fulfilled _ _ Hn) as Hq. rewrite Hr in Hq.
  rewrite (query_normal _ _ Hq). now destruct st0.
Qed.

Lemma readLoop_hello :
  readLoop newTextDecoder [] helloChunks Closed =
    ([ReaderRead; SetAnswer (VString (js "Hel"));
      ReaderRead; SetAnswer (VString (js "Hello wor"));
      ReaderRead; SetAnswer (VString (js "Hello world"));
      ReaderRead],
     Normal tt).
Proof. vm_compute. reflexivity. Qed.

(** C2.  For an [ok] response that is not JSON by its content type and
    whose body delivers "Hel", "lo wor", "ld" and closes: the buffer after
    the three chunks is "Hel", "Hello wor", "Hello world"; the [answer]
    state at the four reads of the body is "", "Hel", "Hello wor",
    "Hello world", that is, after each chunk it is the buffer; and [query]
    ends with [answer] "Hello world", [sources] empty, [error] null and
    [isLoading] false. *)
Theorem streaming_text_reveal request st0 r :
  network endpoint request = Fulfilled r ->
  ok r = true ->
  useApiStream.isJsonContentType r = false ->
  body r = Some (mkBody helloChunks Closed) ->
  let t := trace (query request) in
  bufferHistory newTextDecoder [] helloChunks =
    [js "Hel"; js "Hello wor"; js "Hello world"] /\
  map answer (statesAtReads st0 t) =
    map VString ([] :: bufferHistory newTextDecoder [] helloChunks) /\
  answer (run st0 t) = VString (js "Hello world") /\
  sources (run st0 t) = VArray [] /\
  error (run st0 t) = None /\
  isLoading (run st0 t) = false /\
  completion (query request) = Normal tt.
Proof.
  intros Hn Hok Hct Hb t. subst t.
  rewrite (query_stream_closed _ _ _ Hn Hok Hct Hb eq_refl).
  cbn [chunks]. rewrite readLoop_hello.
  assert (Hh : bufferHistory newTextDecoder [] helloChunks =
                 [js "Hel"; js "Hello wor"; js "Hello world"])
    by (vm_compute; reflexivity).
  rewrite Hh. destruct st0. repeat split.
Qed.

(** ** Values without an [answer] *)

Lemma completeValue_defined v stack v' stack' :
  completeValue v stack = Some (PDone v', stack') -> v' = v.
Proof.
  destruct stack as [|[elems|props [k|]] st]; simpl; congruence.
Qed.

Lemma parse_step_defined p stack t v' stack' :
  parse_step p stack t = Some (PDone v', stack') -> v' <> VUndefined.
Proof.
  assert (Hs : forall t st, startValue t st = Some (PDone v', stack') ->
                            v' <> VUndefined).
  { intros [] st; simpl; try discriminate; intros H;
      apply completeValue_defined in H; subst; discriminate. }
  assert (Ha : forall st, closeArray st = Some (PDone v', stack') ->
                          v' <> VUndefined).
  { intros [|[elems|props k] st]; simpl; try discriminate.
    intros H. apply completeValue_defined in H. subst. discriminate. }
  assert (Ho : forall st, closeObject st = Some (PDone v', stack') ->
                          v' <> VUndefined).
  { intros [|[elems|props [k|]] st]; simpl; try discriminate.
    intros H. apply completeValue_defined in H. subst. discriminate. }
  assert (Hk : forall k st, setKey k st = Some (PDone v', stack') -> False).
  { intros k [|[elems|props [k'|]] st]; simpl; discriminate. }
  destruct p; simpl; try discriminate; eauto;
    destruct t; try discriminate; eauto;
    try (intros H; now apply Hk in H);
    destruct stack as [|[elems|props [k|]] st]; try discriminate; eauto.
Qed.

Lemma parse_tokens_defined ts :
  forall p stack v,
    parse_tokens p stack ts = Some v ->
    (forall v', p = PDone v' -> v' <> VUndefined) ->
    v <> VUndefined.
Proof.
  induction ts as [|t ts IH]; intros p stack v H Hp; simpl in H.
  - destruct p; try discriminate. injection H as <-. now apply Hp.
  - destruct (parse_step p stack t) as [[p' stack']|] eqn:E; [|discriminate].
    apply (IH _ _ _ H). intros v' ->. eapply parse_step_defined, E.
Qed.

(** [JSON.parse] never returns [undefined]. *)
Lemma JSON_parse_defined text v : JSON_parse text = Some v -> v <> VUndefined.
Proof.
  unfold JSON_parse. destruct (lex LTop text) as [ts|]; [|discriminate].
  intros H. apply (parse_tokens_defined _ _ _ _ H). discriminate.
Qed.

Lemma propertyOf_missing v k : hasProperty v k = false -> propertyOf v k = VUndefined.
Proof.
  destruct v; simpl; try reflexivity.
  now destruct (lookupProp props k).
Qed.

Lemma loopState_cons decoder buffer value rest t decoder' buffer' :
  processChunk decoder buffer value = (t, Normal (decoder', buffer')) ->
  loopState decoder buffer (value :: rest) = loopState decoder' buffer' rest.
Proof. intros E. simpl. now rewrite E. Qed.

Lemma loopState_app before :
  forall decoder buffer rest,
    loopState decoder buffer (before ++ rest) =
    loopState (fst (loopState decoder buffer before))
              (snd (loopState decoder buffer before)) rest.
Proof.
  induction before as [|value before IH]; intros decoder buffer rest.
  - reflexivity.
  - destruct (processChunk_settles decoder buffer value)
      as (t & decoder' & buffer' & E & _).
    rewrite <- app_comm_cons, !(loopState_cons _ _ _ _ _ _ _ E). apply IH.
Qed.

(** What a chunk does is part of what the loop does. *)
Lemma readLoop_reaches before :
  forall decoder buffer value rest fin ev,
    In ev (trace (processChunk (fst (loopState decoder buffer before))
                               (snd (loopState decoder buffer before)) value)) ->
    In ev (trace (readLoop decoder buffer (before ++ value :: rest) fin)).
Proof.
  induction before as [|c before IH]; intros decoder buffer value rest fin ev H.
  - simpl in H. simpl app.
    destruct (processChunk_settles decoder buffer value)
      as (t & decoder' & buffer' & E & _).
    rewrite (readLoop_step _ _ _ _ _ _ _ _ E). rewrite E in H. simpl in *.
    right. apply in_or_app. now left.
  - destruct (processChunk_settles decoder buffer c)
      as (t & decoder' & buffer' & E & _).
    rewrite (loopState_cons _ _ _ _ _ _ _ E) in H.
    rewrite <- app_comm_cons, (readLoop_step _ _ _ _ _ _ _ _ E). simpl.
    right. apply in_or_app. right. now apply IH.
Qed.

Lemma query_stream_reaches request r b ev :
  network endpoint request = Fulfilled r ->
  ok r = true ->
  useApiStream.isJsonContentType r = false ->
  body r = Some b ->
  In ev (trace (readLoop newTextDecoder [] (chunks b) (ending b))) ->
  In ev (trace (query request)).
Proof.
  intros Hn Hok Hct Hb H.
  pose proof (queryBody_fulfilled _ _ Hn) as Hq.
  rewrite (handleResponse_stream _ _ Hok Hct Hb) in Hq.
  destruct (ending b) as [|e] eqn:He.
  - rewrite (readStream_closed _ He) in Hq. rewrite (query_normal _ _ Hq).
    simpl. do 6 right. apply in_or_app. now left.
  - rewrite (readStream_errored _ _ He) in Hq. rewrite (query_abrupt _ _ _ Hq).
    simpl. do 6 right. apply in_or_app. left. apply in_or_app. now left.
Qed.

(** C10, amended.  When, at some chunk of a streamed response that is not
    JSON by its content type, the accumulated buffer parses as a JSON
    value other than null that has no [answer] property (a number, a
    string, a boolean, an array, an object without that key), [query]
    calls [setAnswer(undefined)] and the buffer is left empty.  (On null
    reading [.answer] throws, and the text is shown instead.) *)
Theorem unanswered_value_clears_answer request r b before value rest v :
  network endpoint request = Fulfilled r ->
  ok r = true ->
  useApiStream.isJsonContentType r = false ->
  body r = Some b ->
  chunks b = before ++ value :: rest ->
  JSON_parse (bufferAt before value) = Some v ->
  v <> VNull ->
  hasProperty v (js "answer") = false ->
  In (SetAnswer VUndefined) (trace (query request)) /\
  snd (loopState newTextDecoder [] (before ++ [value])) = [].
Proof.
  intros Hn Hok Hct Hb Hc Hp Hnull Hprop.
  pose proof (JSON_parse_defined _ _ Hp) as Hdef.
  unfold useApiStream.bufferAt in Hp.
  pose proof (processChunk_parse_ok _ _ _ _ Hp Hnull Hdef) as E.
  rewrite (propertyOf_missing _ _ Hprop) in E.
  split.
  - apply (query_stream_reaches _ _ _ _ Hn Hok Hct Hb). rewrite Hc.
    apply readLoop_reaches. rewrite E. now left.
  - rewrite loopState_app. now rewrite (loopState_cons _ _ _ [] _ _ _ E).
Qed.

(** ** A JSON document that streams *)

Lemma utf8_run_ascii bs :
  forallb isAscii bs = true ->
  utf8_run utf8_init bs = (utf8_init, map Byte.to_N bs).
Proof.
  induction bs as [|b bs IH]; intros H; [reflexivity|].
  apply andb_prop in H as [Hb Hbs]. unfold isAscii in Hb.
  cbn [utf8_run map].
  change (utf8_handler utf8_init (to_N b)) with (utf8_lead (to_N b)).
  unfold utf8_lead. rewrite Hb, (IH Hbs). reflexivity.
Qed.

Lemma utf16_encode_ascii bs :
  forallb isAscii bs = true ->
  utf16_encode (map Byte.to_N bs) = map Byte.to_N bs.
Proof.
  induction bs as [|b bs IH]; intros H; [reflexivity|].
  apply andb_prop in H as [Hb Hbs]. unfold isAscii in Hb.
  apply N.leb_le in Hb.
  unfold utf16_encode in *. cbn [map flat_map]. rewrite (IH Hbs).
  unfold utf16_units.
  assert (Hlt : (to_N b <? 0x10000) = true) by (apply N.ltb_lt; lia).
  now rewrite Hlt.
Qed.

(** A decoder that awaits no continuation byte turns ASCII bytes into
    the same code units and still awaits none. *)
Lemma decode_stream_ascii decoder bs :
  utf8 decoder = utf8_init ->
  forallb isAscii bs = true ->
  snd (decode_stream decoder bs) = map Byte.to_N bs /\
  utf8 (fst (decode_stream decoder bs)) = utf8_init.
Proof.
  intros Hd Hbs. unfold decode_stream.
  rewrite Hd, (utf8_run_ascii _ Hbs).
  destruct bs as [|b bs]; [now split|].
  pose proof Hbs as Hb. apply andb_prop in Hb as [Hb _].
  unfold isAscii in Hb. apply N.leb_le in Hb.
  assert (Hbom : (to_N b =? 0xFEFF) = false) by (apply N.eqb_neq; lia).
  cbn [map serialize]. rewrite Hbom, andb_false_r.
  cbn [fst snd utf8]. split; [|reflexivity].
  apply (utf16_encode_ascii (b :: bs) Hbs).
Qed.

Lemma forallb_concat {A} (f : A -> bool) (ls : list (list A)) :
  forallb f (List.concat ls) = true ->
  Forall (fun l => forallb f l = true) ls.
Proof.
  induction ls as [|l ls IH]; simpl; intros H; [constructor|].
  rewrite forallb_app in H. apply andb_prop in H as [Hl Hls].
  constructor; auto.
Qed.

Lemma firstn_length_app {A} (l l' : list A) :
  firstn (List.length l) (l ++ l') = l.
Proof. induction l as [|x l IH]; simpl; [reflexivity|now rewrite IH]. Qed.

Lemma finalDocument_ascii : forallb isAscii finalDocument = true.
Proof. vm_compute. reflexivity. Qed.

Lemma JSON_parse_finalText : JSON_parse finalText = Some finalValue.
Proof. vm_compute. reflexivity. Qed.

(** No proper prefix of the document is a JSON text. *)
Lemma JSON_parse_finalText_prefix n :
  (n < List.length finalText)%nat -> JSON_parse (firstn n finalText) = None.
Proof.
  intros Hn.
  assert (H : forallb
                (fun k => match JSON_parse (firstn k finalText) with
                          | None => true
                          | Some _ => false
                          end)
                (seq 0 (List.length finalText)) = true)
    by (vm_compute; reflexivity).
  rewrite forallb_forall in H.
  specialize (H n). rewrite in_seq in H.
  destruct (JSON_parse (firstn n finalText)); [|reflexivity].
  discriminate H. lia.
Qed.

(** A list of chunks that ends with a non-empty one carries data. *)
Lemma last_nonempty_concat {A} (ls : list (list A)) :
  last ls [] <> [] -> List.concat ls <> [].
Proof.
  induction ls as [|l ls IH]; [intros H; now contradiction H|].
  destruct ls as [|l' ls'].
  - simpl. now rewrite app_nil_r.
  - intros H Hc. change (List.concat (l :: l' :: ls'))
      with (l ++ List.concat (l' :: ls')) in Hc.
    apply app_eq_nil in Hc as [_ Hc]. now apply IH.
Qed.

Lemma partition_last_nonempty {A} (ls : list (list A)) :
  Forall (fun l => l <> []) ls -> ls <> [] -> last ls [] <> [].
Proof.
  induction ls as [|l ls IH]; intros Hf Hn; [congruence|].
  inversion Hf as [|? ? Hl Hls]; subst.
  destruct ls as [|l' ls']; [exact Hl|].
  apply IH; [exact Hls|discriminate].
Qed.

(** The loop on chunks that complete the document, the last of them not
    empty: every buffer before the last chunk is a proper prefix and is
    shown as text; the last chunk completes the document, which parses. *)
Lemma readLoop_final pending :
  forall decoder buffer st,
    utf8 decoder = utf8_init ->
    Forall (fun c => forallb isAscii c = true) pending ->
    last pending [] <> [] ->
    buffer ++ map Byte.to_N (List.concat pending) = finalText ->
    let st' := run st (trace (readLoop decoder buffer pending Closed)) in
    answer st' = VString (js "final") /\
    sources st' = VArray [finalCitation] /\
    error st' = error st /\
    isLoading st' = isLoading st.
Proof.
  induction pending as [|c rest IH];
    intros decoder buffer st Hd Hascii Hlast Hcat st';
    [now contradiction Hlast|].
  subst st'.
  inversion Hascii as [|? ? Hc Hrest]; subst.
  destruct (decode_stream_ascii decoder c Hd Hc) as [Hs Hu].
  destruct rest as [|c' rest'].
  - simpl in Hcat. rewrite app_nil_r in Hcat.
    assert (Hp : JSON_parse (buffer ++ snd (decode_stream decoder c)) =
                 Some finalValue)
      by (rewrite Hs, Hcat; apply JSON_parse_finalText).
    assert (E := processChunk_parse_ok decoder buffer c finalValue Hp
                   ltac:(discriminate) ltac:(discriminate)).
    rewrite (readLoop_step _ _ _ _ _ _ _ _ E), readLoop_nil, bind_emit.
    rewrite finishStream_empty.
    destruct st. repeat split.
  - change (last (c :: c' :: rest') []) with (last (c' :: rest') []) in Hlast.
    assert (Hcat' : (buffer ++ map to_N c) ++
                      map to_N (List.concat (c' :: rest')) = finalText)
      by (rewrite <- Hcat;
          change (List.concat (c :: c' :: rest'))
            with (c ++ List.concat (c' :: rest'));
          now rewrite map_app, app_assoc).
    assert (Hp : JSON_parse (buffer ++ snd (decode_stream decoder c)) = None).
    { rewrite Hs.
      rewrite <- (firstn_length_app (buffer ++ map to_N c)
                    (map to_N (List.concat (c' :: rest')))).
      rewrite Hcat'. apply JSON_parse_finalText_prefix.
      rewrite <- Hcat', (length_app (buffer ++ map to_N c)).
      pose proof (last_nonempty_concat _ Hlast) as Hdata.
      destruct (List.concat (c' :: rest')) as [|x xs]; [congruence|].
      simpl. lia. }
    assert (E := processChunk_parse_fails decoder buffer c Hp).
    rewrite (readLoop_step _ _ _ _ _ _ _ _ E).
    cbn [trace fst].
    change (ReaderRead :: ?t ++ ?u) with ((ReaderRead :: t) ++ u).
    rewrite run_app.
    rewrite Hs in *.
    destruct (IH (fst (decode_stream decoder c)) (buffer ++ map to_N c)
                (run st [ReaderRead; SetAnswer (VString (buffer ++ map to_N c))])
                Hu Hrest Hlast Hcat')
      as (Ha & Hb & He & Hl).
    repeat split; assumption.
Qed.

(** The same for [query]: the chunks may even be empty, as long as the
    last one is not. *)
Lemma query_final_document request st0 r b :
  network endpoint request = Fulfilled r ->
  ok r = true ->
  useApiStream.isJsonContentType r = false ->
  body r = Some b ->
  ending b = Closed ->
  List.concat (chunks b) = finalDocument ->
  last (chunks b) [] <> [] ->
  let final := run st0 (trace (query request)) in
  answer final = VString (js "final") /\
  sources final = VArray [finalCitation] /\
  error final = None /\
  isLoading final = false /\
  completion (query request) = Normal tt.
Proof.
  intros Hn Hok Hct Hb He Hd Hlast final. subst final.
  rewrite (query_stream_closed _ _ _ Hn Hok Hct Hb He).
  assert (Hascii : Forall (fun c => forallb isAscii c = true) (chunks b))
    by (apply forallb_concat; rewrite Hd; apply finalDocument_ascii).
  assert (Hcat : [] ++ map to_N (List.concat (chunks b)) = finalText)
    by (now rewrite Hd).
  cbn [trace completion fst snd].
  rewrite run_app, !run_cons, run_app.
  set (st1 := apply_event (apply_event _ _) GetReader).
  destruct (readLoop_final (chunks b) newTextDecoder [] st1
              eq_refl Hascii Hlast Hcat) as (Ha & Hs & Herr & Hl).
  assert (Herr1 : error st1 = None) by (subst st1; now destruct st0).
  unfold trace in *. set (st := run st1 _) in *.
  rewrite Herr1 in Herr. clearbody st.
  destruct st. simpl in *. subst. repeat split.
Qed.

(** C1.  For an [ok] response that is not JSON by its content type and
    whose body closes after delivering the document with answer "final"
    and one citation, cut into non-empty chunks at any byte boundaries,
    [query] ends with [answer] "final" and [sources] the array of that
    one citation (and [error] null, [isLoading] false). *)
Theorem streaming_json_reveal request st0 r b :
  network endpoint request = Fulfilled r ->
  ok r = true ->
  useApiStream.isJsonContentType r = false ->
  body r = Some b ->
  ending b = Closed ->
  List.concat (chunks b) = finalDocument ->
  Forall (fun c => c <> []) (chunks b) ->
  let final := run st0 (trace (query request)) in
  answer final = VString (js "final") /\
  sources final = VArray [finalCitation] /\
  error final = None /\
  isLoading final = false /\
  completion (query request) = Normal tt.
Proof.
  intros Hn Hok Hct Hb He Hd Hne.
  apply (query_final_document _ _ _ _ Hn Hok Hct Hb He Hd).
  apply partition_last_nonempty; [exact Hne|].
  intros H0. rewrite H0 in Hd. discriminate Hd.
Qed.

(** ** How often [sources] is assigned *)

Lemma parsedDocuments_kept decoder buffer value rest :
  JSON_parse (buffer ++ snd (decode_stream decoder value)) = None \/
  JSON_parse (buffer ++ snd (decode_stream decoder value)) = Some VNull \/
  JSON_parse (buffer ++ snd (decode_stream decoder value)) = Some VUndefined ->
  parsedDocuments decoder buffer (value :: rest) =
    parsedDocuments (fst (decode_stream decoder value))
      (buffer ++ snd (decode_stream decoder value)) rest.
Proof. cbn [parsedDocuments]. now intros [-> | [-> | ->]]. Qed.

Lemma parsedDocuments_parsed decoder buffer value rest doc :
  JSON_parse (buffer ++ snd (decode_stream decoder value)) = Some doc ->
  doc <> VNull -> doc <> VUndefined ->
  parsedDocuments decoder buffer (value :: rest) =
    doc :: parsedDocuments (fst (decode_stream decoder value)) [] rest.
Proof. cbn [parsedDocuments]. intros -> Hn Hu. now destruct doc. Qed.

(** The calls of [setSources] in the loop are, in order, the truthy
    [sources] of the whole documents of the body: one at each chunk that
    completes a document, none at the end of the stream. *)
Lemma readLoop_sources pending :
  forall decoder buffer fin,
    finishStream buffer = ret tt ->
    filter isSetSources (trace (readLoop decoder buffer pending fin)) =
      map SetSources
        (filter toBoolean (map sourcesOf (parsedDocuments decoder buffer pending))).
Proof.
  induction pending as [|value rest IH]; intros decoder buffer fin Hb.
  - rewrite readLoop_nil, bind_emit. now destruct fin; [rewrite Hb|].
  - destruct (processChunk_cases decoder buffer value)
      as [[E H] | (v & Hp & Hn & Hu & E)].
    + rewrite (readLoop_step _ _ _ _ _ _ _ _ E), (parsedDocuments_kept _ _ _ _ H).
      cbn [trace fst app filter isSetSources].
      apply IH. now apply finishStream_unparsed.
    + rewrite (readLoop_step _ _ _ _ _ _ _ _ E),
        (parsedDocuments_parsed _ _ _ _ _ Hp Hn Hu).
      pose proof (IH (fst (decode_stream decoder value)) [] fin finishStream_empty)
        as IH'.
      cbn [trace fst map filter].
      change (sourcesOf v) with (propertyOf v (js "sources")).
      destruct (toBoolean (propertyOf v (js "sources")));
        cbn [app filter isSetSources map]; now rewrite IH'.
Qed.

Lemma handleResponse_sources r :
  filter isSetSources (trace (handleResponse r)) =
    map SetSources (sourcesAssigned (Fulfilled r)).
Proof.
  unfold useApiStream.handleResponse, sourcesAssigned, wholeDocuments, onJsonPath.
  destruct (ok r); simpl negb; cbv iota;
    [|now destruct (useApiStream.isJsonContentType r)].
  destruct (useApiStream.isJsonContentType r).
  - unfold useApiStream.responseJson, useApiStream.jsonParse, jsonDocument.
    destruct (body r) as [b|]; [destruct (ending b)|]; try reflexivity.
    destruct (JSON_parse _) as [v|]; [destruct v|]; reflexivity.
  - destruct (body r) as [b|]; [|reflexivity].
    pose proof (readLoop_sources (chunks b) newTextDecoder [] (ending b)
                  finishStream_empty) as Hl.
    destruct (ending b) as [|e] eqn:He.
    + rewrite (readStream_closed _ He). exact Hl.
    + rewrite (readStream_errored _ _ He). cbn [trace fst filter isSetSources].
      now rewrite filter_app, Hl, app_nil_r.
Qed.

Lemma queryBody_sources request :
  filter isSetSources (trace (queryBody request)) =
    map SetSources (sourcesAssigned (network endpoint request)).
Proof.
  destruct (network endpoint request) as [e|r] eqn:Hn.
  - now rewrite (queryBody_rejected _ _ Hn).
  - rewrite (queryBody_fulfilled _ _ Hn). cbn [trace fst filter isSetSources].
    apply handleResponse_sources.
Qed.



(** ** Failures, whatever the cause *)

Lemma shownAfter_kept decoder buffer value rest shown :
  JSON_parse (buffer ++ snd (decode_stream decoder value)) = None \/
  JSON_parse (buffer ++ snd (decode_stream decoder value)) = Some VNull \/
  JSON_parse (buffer ++ snd (decode_stream decoder value)) = Some VUndefined ->
  shownAfter decoder buffer (value :: rest) shown =
    shownAfter (fst (decode_stream decoder value))
      (buffer ++ snd (decode_stream decoder value)) rest
      (VString (buffer ++ snd (decode_stream decoder value))).
Proof. cbn [shownAfter]. now intros [-> | [-> | ->]]. Qed.

Lemma shownAfter_parsed decoder buffer value rest shown doc :
  JSON_parse (buffer ++ snd (decode_stream decoder value)) = Some doc ->
  doc <> VNull -> doc <> VUndefined ->
  shownAfter decoder buffer (value :: rest) shown =
    shownAfter (fst (decode_stream decoder value)) [] rest
      (propertyOf doc (js "answer")).
Proof. cbn [shownAfter]. intros -> Hn Hu. now destruct doc. Qed.

(** What the loop leaves on display, whether the stream closes or a read
    fails. *)
Lemma readLoop_shown pending :
  forall decoder buffer fin st,
    finishStream buffer = ret tt ->
    answer (run st (trace (readLoop decoder buffer pending fin))) =
      shownAfter decoder buffer pending (answer st).
Proof.
  induction pending as [|value rest IH]; intros decoder buffer fin st Hb.
  - rewrite readLoop_nil, bind_emit. now destruct fin; [rewrite Hb|].
  - destruct (processChunk_cases decoder buffer value)
      as [[E H] | (v & Hp & Hn & Hu & E)].
    + rewrite (readLoop_step _ _ _ _ _ _ _ _ E), (shownAfter_kept _ _ _ _ _ H).
      cbn [trace fst app]. rewrite !run_cons.
      now rewrite IH by now apply finishStream_unparsed.
    + rewrite (readLoop_step _ _ _ _ _ _ _ _ E),
        (shownAfter_parsed _ _ _ _ _ _ Hp Hn Hu).
      cbn [trace fst].
      destruct (toBoolean (propertyOf v (js "sources")));
        cbn [app]; rewrite !run_cons;
        now rewrite IH by apply finishStream_empty.
Qed.

(** When the [try] block throws, what it leaves on display is the
    partial answer of the response. *)
Lemma queryBody_partial_answer request e :
  completion (queryBody request) = Abrupt e ->
  answer (run clearedState (trace (queryBody request))) =
    partialAnswer (network endpoint request).
Proof.
  destruct (network endpoint request) as [x|r] eqn:Hn.
  - now rewrite (queryBody_rejected _ _ Hn).
  - rewrite (queryBody_fulfilled _ _ Hn). cbn [trace completion fst snd].
    rewrite run_cons. change (apply_event clearedState _) with clearedState.
    unfold partialAnswer, useApiStream.handleResponse.
    destruct (ok r); simpl negb; cbv iota; [|reflexivity].
    destruct (useApiStream.isJsonContentType r); simpl andb; cbv iota.
    + unfold useApiStream.responseJson, useApiStream.jsonParse.
      destruct (body r) as [b|]; [destruct (ending b)|]; try reflexivity.
      destruct (JSON_parse _) as [v|]; [destruct v|];
        solve [reflexivity | discriminate].
    + destruct (body r) as [b|]; [|reflexivity].
      destruct (ending b) as [|x] eqn:He.
      * now rewrite (readStream_closed _ He).
      * rewrite (readStream_errored _ _ He). cbn [trace fst]. intros _.
        rewrite run_cons, run_app.
        change (apply_event clearedState GetReader) with clearedState.
        change (answer (run ?st [ConsoleError ?a ?b])) with (answer st).
        now rewrite readLoop_shown by apply finishStream_empty.
Qed.

Lemma last_cons {A} (vs : list A) :
  forall v d, last (v :: vs) d = last vs v.
Proof.
  induction vs as [|w vs IH]; intros v d; [reflexivity|].
  change (last (v :: w :: vs) d) with (last (w :: vs) d).
  now rewrite !IH.
Qed.

(** [sources] after a run is the argument of the last [setSources]. *)
Lemma run_sources t :
  forall vs st,
    filter isSetSources t = map SetSources vs ->
    sources (run st t) = last vs (sources st).
Proof.
  induction t as [|ev t IH]; intros vs st H.
  - now destruct vs.
  - rewrite run_cons.
    destruct ev; cbn [filter isSetSources] in H;
      try (now rewrite (IH vs _ H)).
    destruct vs as [|w vs]; [discriminate|].
    cbn [map] in H. injection H as -> H.
    rewrite (IH vs _ H). cbn [apply_event sources]. now rewrite last_cons.
Qed.

(** C5.  Whenever the [try] block of [query] throws, whatever the cause,
    [query] stores the message in [error] (the message of the error
    thrown, or "An unknown error occurred" when what was thrown is not an
    Error), leaves [answer] at the partial answer of the response (what
    the chunks read before the failure showed; the empty text when none
    was read) and [sources] at the last value assigned before the
    failure, ends with [isLoading] false, and completes normally: nothing
    is thrown to the caller.  After the throw it calls [setError],
    [console.error] and [setIsLoading(false)] and nothing else.  What is
    thrown is the rejection of the fetch, "API request failed: " with the
    status text, "No response body received", or "Failed to read
    streaming response", according to the cause. *)
Theorem error_containment request st0 e :
  completion (queryBody request) = Abrupt e ->
  let answered := network endpoint request in
  let message := match e with
                 | ErrorObject message => message
                 | OtherThrown _ => js "An unknown error occurred"
                 end in
  let final := run st0 (trace (query request)) in
  error final = Some message /\
  answer final = partialAnswer answered /\
  sources final = last (sourcesAssigned answered) (VArray []) /\
  isLoading final = false /\
  completion (query request) = Normal tt /\
  trace (query request) =
    trace useApiStream.queryStart ++ trace (queryBody request) ++
    [SetError (Some message); ConsoleError (js "API query error:") e;
     SetIsLoading false] /\
  (forall x, answered = Rejected x -> e = x) /\
  (forall r, answered = Fulfilled r -> ok r = false ->
     e = ErrorObject (js "API request failed: " ++ statusText r)) /\
  (forall r, answered = Fulfilled r -> ok r = true ->
     useApiStream.isJsonContentType r = false -> body r = None ->
     e = ErrorObject (js "No response body received")) /\
  (forall r b x, answered = Fulfilled r -> ok r = true ->
     useApiStream.isJsonContentType r = false -> body r = Some b ->
     ending b = Errored x ->
     e = ErrorObject (js "Failed to read streaming response")).
Proof.
  intros H answered message final. subst answered message final.
  pose proof (queryBody_partial_answer _ _ H) as Hanswer.
  pose proof (run_sources _ _ clearedState (queryBody_sources request)) as Hsources.
  assert (Hstart : run st0 (trace useApiStream.queryStart) = clearedState)
    by reflexivity.
  assert (Hcauses :
    (forall x, network endpoint request = Rejected x -> e = x) /\
    (forall r, network endpoint request = Fulfilled r -> ok r = false ->
       e = ErrorObject (js "API request failed: " ++ statusText r)) /\
    (forall r, network endpoint request = Fulfilled r -> ok r = true ->
       useApiStream.isJsonContentType r = false -> body r = None ->
       e = ErrorObject (js "No response body received")) /\
    (forall r b x, network endpoint request = Fulfilled r -> ok r = true ->
       useApiStream.isJsonContentType r = false -> body r = Some b ->
       ending b = Errored x ->
       e = ErrorObject (js "Failed to read streaming response"))).
  { repeat split.
    - intros x Hn. rewrite (queryBody_rejected _ _ Hn) in H. now inversion H.
    - intros r Hn Hok.
      rewrite (queryBody_fulfilled _ _ Hn), (handleResponse_not_ok _ Hok) in H.
      now inversion H.
    - intros r Hn Hok Hct Hbody.
      rewrite (queryBody_fulfilled _ _ Hn),
        (handleResponse_no_body _ Hok Hct Hbody) in H.
      now inversion H.
    - intros r b x Hn Hok Hct Hbody Hend.
      rewrite (queryBody_fulfilled _ _ Hn),
        (handleResponse_stream _ _ Hok Hct Hbody),
        (readStream_errored _ _ Hend) in H.
      now inversion H. }
  destruct (queryBody request) as [t c] eqn:Hb.
  cbn [trace completion fst snd] in *. subst c.
  rewrite (query_abrupt _ _ _ Hb). cbn [trace completion fst snd].
  rewrite !run_app, Hstart.
  change (answer (run (run clearedState t) _)) with (answer (run clearedState t)).
  change (sources (run (run clearedState t) _)) with (sources (run clearedState t)).
  rewrite Hanswer, Hsources.
  repeat split; try apply Hcauses.
Qed.

(** * Beyond the cases of the specification *)

Local Notation handleSearch :=
  (App.handleSearch syntaxErrorMessage typeErrorMessage VITE_API_URL network).
Local Notation submit :=
  (App.submit syntaxErrorMessage typeErrorMessage VITE_API_URL network).

(** ** Which effects the phases of [query] perform *)

Lemma processChunk_phase decoder buffer value :
  forallb isBodyPhaseEvent (trace (processChunk decoder buffer value)) = true.
Proof.
  destruct (processChunk_cases decoder buffer value) as [[E _] | (v & _ & _ & _ & E)];
    rewrite E; [reflexivity|].
  now destruct (toBoolean (propertyOf v (js "sources"))).
Qed.

Lemma readLoop_phase pending :
  forall decoder buffer fin,
    finishStream buffer = ret tt ->
    forallb isBodyPhaseEvent (trace (readLoop decoder buffer pending fin)) = true.
Proof.
  induction pending as [|value rest IH]; intros decoder buffer fin Hb.
  - rewrite readLoop_nil, bind_emit. destruct fin; [now rewrite Hb|reflexivity].
  - pose proof (processChunk_phase decoder buffer value) as Hp.
    destruct (processChunk_settles decoder buffer value)
      as (t & decoder' & buffer' & E & Hb').
    rewrite (readLoop_step _ _ _ _ _ _ _ _ E). rewrite E in Hp.
    cbn [trace fst] in *. cbn [forallb isBodyPhaseEvent andb].
    rewrite forallb_app, Hp. apply (IH decoder' buffer' fin Hb').
Qed.

Lemma handleResponse_phase r :
  forallb isBodyPhaseEvent (trace (handleResponse r)) = true.
Proof.
  unfold useApiStream.handleResponse.
  destruct (ok r); simpl negb; cbv iota; [|reflexivity].
  destruct (useApiStream.isJsonContentType r).
  - unfold useApiStream.responseJson, useApiStream.jsonParse.
    destruct (body r) as [b|]; [destruct (ending b)|]; try reflexivity;
      (destruct (JSON_parse _) as [v|]; [destruct v|]; reflexivity).
  - destruct (body r) as [b|]; [|reflexivity].
    pose proof (readLoop_phase (chunks b) newTextDecoder [] (ending b)
                  finishStream_empty) as Hl.
    destruct (ending b) as [|e] eqn:He.
    + rewrite (readStream_closed _ He). exact Hl.
    + rewrite (readStream_errored _ _ He). cbn [trace fst forallb isBodyPhaseEvent andb].
      rewrite forallb_app, Hl. reflexivity.
Qed.

Lemma queryBody_shape request :
  exists t,
    trace (queryBody request) = Fetch endpoint request :: t /\
    forallb isBodyPhaseEvent t = true.
Proof.
  destruct (network endpoint request) as [e|r] eqn:Hn.
  - rewrite (queryBody_rejected _ _ Hn). now exists [].
  - rewrite (queryBody_fulfilled _ _ Hn). eexists. split; [reflexivity|].
    apply handleResponse_phase.
Qed.

(** The whole run: the four clearing calls, the fetch, the effects of the
    body phase, then [setError] and [console.error] exactly when the [try]
    block threw, then [setIsLoading(false)]. *)
Lemma query_shape request :
  exists t,
    forallb isBodyPhaseEvent t = true /\
    trace (queryBody request) = Fetch endpoint request :: t /\
    trace (query request) =
      trace useApiStream.queryStart ++ Fetch endpoint request :: t ++
      match completion (queryBody request) with
      | Normal _ => []
      | Abrupt e => [SetError (Some (useApiStream.errorMessageOf e));
                     ConsoleError (js "API query error:") e]
      end ++ [SetIsLoading false].
Proof.
  destruct (queryBody_shape request) as (t & Ht & Hq).
  exists t. split; [exact Hq|]. split; [exact Ht|].
  destruct (queryBody request) as [tb [[]|e]] eqn:Hb; cbn [trace fst] in Ht; subst tb.
  - now rewrite (query_normal _ _ Hb).
  - now rewrite (query_abrupt _ _ _ Hb).
Qed.

Lemma phase_filter (q : Event -> bool) t :
  (forall ev, isBodyPhaseEvent ev = true -> q ev = false) ->
  forallb isBodyPhaseEvent t = true ->
  filter q t = [].
Proof.
  intros Hq. induction t as [|ev t IH]; intros H; [reflexivity|].
  simpl in H. apply andb_prop in H as [Hev Ht].
  simpl. now rewrite (Hq ev Hev), (IH Ht).
Qed.

Lemma run_cleared st : run st (trace useApiStream.queryStart) = clearedState.
Proof. now destruct st. Qed.

(** X1.  What a run of [query] leaves does not depend on the state it
    started from: whatever an earlier query left in [answer], [sources],
    [error] or [isLoading] is gone. *)
Theorem query_forgets_prior_state request st0 st1 :
  run st0 (trace (query request)) = run st1 (trace (query request)).
Proof.
  destruct (query_starts request) as [t Ht].
  now rewrite Ht, !run_app, !run_cleared.
Qed.

(** X2.  Every run of [query] performs exactly one fetch, whatever the
    network answers: the POST of the request it was given to
    [VITE_API_URL] (or the empty string) followed by /api/query.  There is
    no retry. *)
Theorem query_fetches_once request :
  filter isFetch (trace (query request)) = [Fetch endpoint request].
Proof.
  destruct (query_shape request) as (t & Hp & _ & Ht). rewrite Ht.
  rewrite filter_app. cbn [filter isFetch].
  rewrite !filter_app, (phase_filter isFetch t); [|now intros []|exact Hp].
  now destruct (completion (queryBody request)).
Qed.

(** X3.  [isLoading] brackets every run: [setIsLoading(true)] is the first
    effect, [setIsLoading(false)] the last, there is no other call of
    [setIsLoading] between them, the run ends with [isLoading] false and
    the promise resolves, on success and on every failure alike. *)
Theorem isLoading_brackets_run request st0 :
  (exists middle,
     trace (query request) = SetIsLoading true :: middle ++ [SetIsLoading false] /\
     existsb isSetIsLoading middle = false) /\
  isLoading (run st0 (trace (query request))) = false /\
  completion (query request) = Normal tt.
Proof.
  destruct (query_shape request) as (t & Hp & _ & Ht).
  split; [|split; [|apply query_resolves]].
  - rewrite Ht.
    exists ([SetError None; SetAnswer (VString []); SetSources (VArray [])] ++
            Fetch endpoint request :: t ++
            match completion (queryBody request) with
            | Normal _ => []
            | Abrupt e => [SetError (Some (useApiStream.errorMessageOf e));
                           ConsoleError (js "API query error:") e]
            end).
    split.
    + simpl. now rewrite <- app_assoc.
    + assert (Hf : existsb isSetIsLoading t = false).
      { clear Ht. induction t as [|ev t IH]; [reflexivity|].
        simpl in Hp. apply andb_prop in Hp as [Hev Hp]. simpl.
        rewrite (IH Hp). now destruct ev. }
      cbn [app existsb isSetIsLoading orb]. rewrite existsb_app, Hf.
      now destruct (completion (queryBody request)).
  - destruct (queryBody request) as [tb [[]|e]] eqn:Hb.
    + rewrite (query_normal _ _ Hb). cbn [trace fst].
      rewrite app_assoc, run_app. set (st := run st0 _). now destruct st.
    + rewrite (query_abrupt _ _ _ Hb). cbn [trace fst].
      rewrite app_assoc, run_app. set (st := run st0 _). now destruct st.
Qed.

(** X4.  [error] is set exactly when the [try] block threw: a run whose
    [try] block completes leaves [error] null, and a run whose [try] block
    throws leaves a message (C5 says which).  So after [query], a null
    [error] means the response was handled to the end. *)
Theorem error_iff_thrown request st0 :
  error (run st0 (trace (query request))) = None <->
  completion (queryBody request) = Normal tt.
Proof.
  destruct (query_shape request) as (t & Hp & _ & Ht). rewrite Ht.
  assert (Hkeep : forall st, error (run st t) = error st).
  { clear Ht. induction t as [|ev t IH]; intros st; [reflexivity|].
    simpl in Hp. apply andb_prop in Hp as [Hev Hp].
    rewrite run_cons, (IH Hp). now destruct ev. }
  rewrite run_app, run_cleared, run_cons, run_app.
  destruct (completion (queryBody request)) as [[]|e].
  - rewrite run_app. cbn [app run fold_left apply_event error].
    rewrite Hkeep. split; reflexivity.
  - rewrite run_app. cbn [app run fold_left apply_event error].
    split; discriminate.
Qed.

(** X5.  When [fetch] itself rejects (the network is down), the run is
    the four clearing calls, the fetch, [setError] with the message of
    what was thrown (or "An unknown error occurred" when it is not an
    [Error]), [console.error], [setIsLoading(false)]: nothing is read,
    [answer] stays empty and [sources] stays the empty array. *)
Theorem fetch_rejection request st0 e :
  network endpoint request = Rejected e ->
  trace (query request) =
    [SetIsLoading true; SetError None; SetAnswer (VString []);
     SetSources (VArray []); Fetch endpoint request;
     SetError (Some (useApiStream.errorMessageOf e));
     ConsoleError (js "API query error:") e; SetIsLoading false] /\
  run st0 (trace (query request)) =
    mkState (VString []) (VArray []) false
      (Some (match e with
             | ErrorObject message => message
             | OtherThrown _ => js "An unknown error occurred"
             end)).
Proof.
  intros Hn. rewrite (query_abrupt _ _ _ (queryBody_rejected _ _ Hn)).
  split; [reflexivity|]. destruct st0, e; reflexivity.
Qed.

(** ** What a streamed response leaves *)

Lemma shownFor_kept text :
  JSON_parse text = None \/ JSON_parse text = Some VNull \/
  JSON_parse text = Some VUndefined ->
  shownFor text = VString text.
Proof. unfold shownFor. now intros [-> | [-> | ->]]. Qed.

Lemma shownFor_parsed text v :
  JSON_parse text = Some v -> v <> VNull -> v <> VUndefined ->
  shownFor text = propertyOf v (js "answer").
Proof. unfold shownFor. intros -> Hn Hu. now destruct v. Qed.

(** A chunk calls [setAnswer] once, first, with [shownFor] of the
    accumulated text; what may follow is a [setSources] of a truthy
    value. *)
Lemma processChunk_shows decoder buffer value :
  exists more decoder' buffer',
    processChunk decoder buffer value =
      (SetAnswer (shownFor (buffer ++ snd (decode_stream decoder value))) :: more,
       Normal (decoder', buffer')) /\
    finishStream buffer' = ret tt /\
    (more = [] \/ exists s, more = [SetSources s] /\ toBoolean s = true).
Proof.
  destruct (processChunk_cases decoder buffer value)
    as [[E H] | (v & Hp & Hn & Hu & E)].
  - rewrite (shownFor_kept _ H). do 3 eexists. split; [exact E|].
    split; [now apply finishStream_unparsed|now left].
  - rewrite (shownFor_parsed _ _ Hp Hn Hu). do 3 eexists. split; [exact E|].
    split; [apply finishStream_empty|].
    destruct (toBoolean (propertyOf v (js "sources"))) eqn:Hs; [|now left].
    right. now eexists.
Qed.

Lemma run_more st more :
  more = [] \/ (exists s, more = [SetSources s] /\ toBoolean s = true) ->
  answer (run st more) = answer st /\
  error (run st more) = error st /\
  isLoading (run st more) = isLoading st /\
  (toBoolean (sources st) = true -> toBoolean (sources (run st more)) = true).
Proof.
  intros [-> | (s & -> & Hs)]; destruct st; simpl; auto.
Qed.

(** The loop over chunks that end with [value]: the answer it leaves is
    what that last chunk showed, and [sources] stays truthy. *)
Lemma readLoop_leaves before :
  forall decoder buffer value fin st,
    let st' := run st (trace (readLoop decoder buffer (before ++ [value]) fin)) in
    answer st' =
      shownFor (snd (loopState decoder buffer before) ++
                snd (decode_stream (fst (loopState decoder buffer before)) value)) /\
    error st' = error st /\
    isLoading st' = isLoading st /\
    (toBoolean (sources st) = true -> toBoolean (sources st') = true).
Proof.
  induction before as [|c before IH]; intros decoder buffer value fin st st'; subst st'.
  - destruct (processChunk_shows decoder buffer value)
      as (more & decoder' & buffer' & E & Hb' & Hm).
    simpl app. rewrite (readLoop_step _ _ _ _ _ _ _ _ E), readLoop_nil, bind_emit.
    assert (Hend : trace (match fin with
                          | Closed => finishStream buffer'
                          | Errored e => throw e
                          end) = [])
      by (destruct fin; [now rewrite Hb'|reflexivity]).
    cbn [trace fst] in *. rewrite Hend.
    rewrite !run_cons, run_app, !run_cons.
    match goal with
    | |- context [run ?s more] =>
        destruct (run_more s more Hm) as (Ha & He & Hl & Hs);
        set (st1 := run s more) in *; clearbody st1
    end.
    cbn [run fold_left apply_event answer error isLoading sources loopState fst snd].
    cbn [apply_event answer error isLoading sources] in Ha, He, Hl, Hs.
    repeat split; assumption.
  - destruct (processChunk_shows decoder buffer c)
      as (more & decoder' & buffer' & E & Hb' & Hm).
    rewrite (loopState_cons _ _ _ _ _ _ _ E).
    rewrite <- app_comm_cons, (readLoop_step _ _ _ _ _ _ _ _ E).
    cbn [trace fst]. rewrite !run_cons, run_app, !run_cons.
    match goal with
    | |- context [run ?s more] =>
        destruct (run_more s more Hm) as (_ & He & Hl & Hs);
        set (st1 := run s more) in *; clearbody st1
    end.
    cbn [apply_event answer error isLoading sources] in He, Hl, Hs.
    destruct (IH decoder' buffer' value fin st1) as (Ha' & He' & Hl' & Hs').
    unfold trace in *.
    repeat split.
    + exact Ha'.
    + now rewrite He'.
    + now rewrite Hl'.
    + intros H. now apply Hs', Hs.
Qed.

(** The trace of a run on a streamed response, for either end of the
    stream. *)
Lemma query_stream_trace request r b :
  network endpoint request = Fulfilled r ->
  ok r = true ->
  useApiStream.isJsonContentType r = false ->
  body r = Some b ->
  exists tail,
    trace (query request) =
      (trace useApiStream.queryStart ++ [Fetch endpoint request; GetReader]) ++
      trace (readLoop newTextDecoder [] (chunks b) (ending b)) ++ tail /\
    forall st, answer (run st tail) = answer st /\
               sources (run st tail) = sources st.
Proof.
  intros Hn Hok Hct Hb.
  pose proof (queryBody_fulfilled _ _ Hn) as Hq.
  rewrite (handleResponse_stream _ _ Hok Hct Hb) in Hq.
  destruct (ending b) as [|e] eqn:He.
  - rewrite (readStream_closed _ He) in Hq. rewrite (query_normal _ _ Hq).
    exists [SetIsLoading false]. split; [|now intros []].
    cbn [trace fst]. now rewrite <- app_assoc.
  - rewrite (readStream_errored _ _ He) in Hq. rewrite (query_abrupt _ _ _ Hq).
    exists [ConsoleError (js "Stream reading error:") e;
            SetError (Some (js "Failed to read streaming response"));
            ConsoleError (js "API query error:")
              (ErrorObject (js "Failed to read streaming response"));
            SetIsLoading false].
    split; [|now intros []].
    simpl. now rewrite <- app_assoc.
Qed.

(** X6.  After a streamed response (not JSON by its content type) that
    delivered at least one chunk, whether the stream closed or a read
    failed, [answer] is what the last chunk showed: the [answer] property
    of the value the accumulated buffer parsed to, or the buffer itself as
    text when it did not parse (or parsed to null). *)
Theorem streamed_answer_is_last_shown request st0 r b before value :
  network endpoint request = Fulfilled r ->
  ok r = true ->
  useApiStream.isJsonContentType r = false ->
  body r = Some b ->
  chunks b = before ++ [value] ->
  answer (run st0 (trace (query request))) = shownFor (bufferAt before value).
Proof.
  intros Hn Hok Hct Hb Hc.
  destruct (query_stream_trace _ _ _ Hn Hok Hct Hb) as (tail & Ht & Htail).
  rewrite Ht, Hc, run_app, run_app.
  destruct (Htail (run (run st0 (trace useApiStream.queryStart ++
                                   [Fetch endpoint request; GetReader]))
                       (trace (readLoop newTextDecoder [] (before ++ [value])
                                 (ending b))))) as [-> _].
  now destruct (readLoop_leaves before newTextDecoder [] value (ending b)
                  (run st0 (trace useApiStream.queryStart ++
                              [Fetch endpoint request; GetReader]))) as [-> _].
Qed.

(** X7.  When a read of the body fails, whatever was thrown, [error] is
    "Failed to read streaming response": the cause is only logged to the
    console, and the run ends with [isLoading] false. *)
Theorem stream_failure_message request st0 r b e :
  network endpoint request = Fulfilled r ->
  ok r = true ->
  useApiStream.isJsonContentType r = false ->
  body r = Some b ->
  ending b = Errored e ->
  error (run st0 (trace (query request)))
    = Some (js "Failed to read streaming response") /\
  In (ConsoleError (js "Stream reading error:") e) (trace (query request)) /\
  isLoading (run st0 (trace (query request))) = false.
Proof.
  intros Hn Hok Hct Hb He.
  pose proof (queryBody_fulfilled _ _ Hn) as Hq.
  rewrite (handleResponse_stream _ _ Hok Hct Hb), (readStream_errored _ _ He) in Hq.
  rewrite (query_abrupt _ _ _ Hq). cbn [trace fst]. repeat split.
  - rewrite app_assoc, run_app. set (st := run st0 _). now destruct st.
  - apply in_or_app. right. apply in_or_app. left.
    right. right. apply in_or_app. right. now left.
  - rewrite app_assoc, run_app. set (st := run st0 _). now destruct st.
Qed.

(** X8.  On the streaming path [sources] is never given a falsy value:
    after a streamed response it is still the empty array, or the truthy
    [sources] of a parsed document; never undefined or null. *)
Theorem streamed_sources_stay_truthy request st0 r b :
  network endpoint request = Fulfilled r ->
  ok r = true ->
  useApiStream.isJsonContentType r = false ->
  body r = Some b ->
  toBoolean (sources (run st0 (trace (query request)))) = true.
Proof.
  intros Hn Hok Hct Hb.
  destruct (query_stream_trace _ _ _ Hn Hok Hct Hb) as (tail & Ht & Htail).
  rewrite Ht, run_app, run_app.
  set (st1 := run st0 (_ ++ [_; _])).
  destruct (Htail (run st1 (trace (readLoop newTextDecoder [] (chunks b)
                                     (ending b))))) as [_ ->].
  assert (H1 : toBoolean (sources st1) = true)
    by (subst st1; rewrite run_app, run_cleared; reflexivity).
  destruct (chunks b) as [|c cs] eqn:Hc using rev_ind.
  - rewrite readLoop_nil, bind_emit.
    destruct (ending b); [rewrite finishStream_empty|]; exact H1.
  - now apply (readLoop_leaves cs newTextDecoder [] c (ending b) st1).
Qed.

(** ** What a JSON response leaves *)

(** X9.  On the JSON path, for any body that parses to a value other
    than null, [answer] and [sources] are that value's [answer] and
    [sources] properties as they are, with no check: a document without
    [sources] leaves [sources] undefined, not the empty array. *)
Theorem json_body_is_shown_unchecked request st0 r b doc :
  network endpoint request = Fulfilled r ->
  ok r = true ->
  useApiStream.isJsonContentType r = true ->
  body r = Some b ->
  ending b = Closed ->
  JSON_parse (utf8_decode (List.concat (chunks b))) = Some doc ->
  doc <> VNull ->
  run st0 (trace (query request)) =
    mkState (propertyOf doc (js "answer")) (propertyOf doc (js "sources")) false None.
Proof.
  intros Hn Hok Hct Hb He Hp Hnull.
  pose proof (JSON_parse_defined _ _ Hp) as Hdef.
  assert (Hr : handleResponse r =
                 ([ResponseJson; SetAnswer (propertyOf doc (js "answer"));
                   SetSources (propertyOf doc (js "sources"))], Normal tt)).
  { unfold useApiStream.handleResponse, useApiStream.responseJson.
    rewrite Hok, Hct, Hb, He. simpl negb. cbv iota.
    unfold useApiStream.jsonParse. rewrite Hp.
    destruct doc; try congruence; reflexivity. }
  pose proof (queryBody_fulfilled _ _ Hn) as Hq. rewrite Hr in Hq.
  rewrite (query_normal _ _ Hq). now destruct st0.
Qed.

(** X10.  On the JSON path, a body that is not a JSON text, or that is
    the text null, shows nothing: [answer] stays empty, [sources] stays
    the empty array, and [error] is the message of the engine's
    SyntaxError, or of its TypeError for reading [answer] of null. *)
Theorem json_body_rejected request st0 r b :
  network endpoint request = Fulfilled r ->
  ok r = true ->
  useApiStream.isJsonContentType r = true ->
  body r = Some b ->
  ending b = Closed ->
  JSON_parse (utf8_decode (List.concat (chunks b))) = None \/
  JSON_parse (utf8_decode (List.concat (chunks b))) = Some VNull ->
  run st0 (trace (query request)) =
    mkState (VString []) (VArray []) false
      (Some (match JSON_parse (utf8_decode (List.concat (chunks b))) with
             | None => syntaxErrorMessage (utf8_decode (List.concat (chunks b)))
             | Some _ => typeErrorMessage VNull (js "answer")
             end)).
Proof.
  intros Hn Hok Hct Hb He Hp.
  pose proof (queryBody_fulfilled _ _ Hn) as Hq.
  unfold useApiStream.handleResponse, useApiStream.responseJson in Hq.
  rewrite Hok, Hct, Hb, He in Hq. simpl negb in Hq. cbv iota in Hq.
  unfold useApiStream.jsonParse in Hq.
  destruct Hp as [Hp | Hp]; rewrite Hp in *;
    rewrite (query_abrupt _ _ _ Hq); now destruct st0.
Qed.

(** ** Text that streams *)

Lemma utf8_run_app a :
  forall s b,
    utf8_run s (a ++ b) =
      (fst (utf8_run (fst (utf8_run s a)) b),
       snd (utf8_run s a) ++ snd (utf8_run (fst (utf8_run s a)) b)).
Proof.
  induction a as [|x a IH]; intros s b.
  - simpl. now destruct (utf8_run s b).
  - cbn [utf8_run app]. destruct (utf8_handler s (to_N x)) as [s1 out1].
    rewrite IH. destruct (utf8_run s1 a) as [s2 out2]. cbn [fst snd].
    destruct (utf8_run s2 b) as [s3 out3]. cbn [fst snd].
    now rewrite app_assoc.
Qed.

Lemma serialize_app seenBom o1 o2 :
  serialize seenBom (o1 ++ o2) =
    (fst (serialize (fst (serialize seenBom o1)) o2),
     snd (serialize seenBom o1) ++ snd (serialize (fst (serialize seenBom o1)) o2)).
Proof.
  destruct o1 as [|c o1].
  - simpl. now destruct (serialize seenBom o2).
  - cbn [app serialize fst snd].
    assert (H : serialize true o2 = (true, o2)) by now destruct o2.
    rewrite H. cbn [fst snd].
    now destruct (negb seenBom && (c =? 65279)).
Qed.

(** Decoding in streaming mode does not see the chunk boundaries: the
    text of two chunks in a row is the text of their concatenation. *)
Lemma decode_stream_app d a b :
  decode_stream d (a ++ b) =
    (fst (decode_stream (fst (decode_stream d a)) b),
     snd (decode_stream d a) ++ snd (decode_stream (fst (decode_stream d a)) b)).
Proof.
  unfold decode_stream. rewrite utf8_run_app.
  destruct (utf8_run (utf8 d) a) as [s1 o1]. cbn [fst snd].
  rewrite serialize_app.
  destruct (serialize (bomSeen d) o1) as [b1 out1]. cbn [fst snd utf8 bomSeen].
  destruct (utf8_run s1 b) as [s2 o2]. cbn [fst snd].
  destruct (serialize b1 o2) as [b2 out2]. cbn [fst snd].
  unfold utf16_encode. now rewrite flat_map_app.
Qed.

Lemma flat_map_seq_shift {A} (f : nat -> list A) n :
  forall start,
    flat_map f (seq (S start) n) = flat_map (fun k => f (S k)) (seq start n).
Proof.
  induction n as [|n IH]; intros start; [reflexivity|].
  cbn [seq flat_map]. now rewrite IH.
Qed.

Lemma readLoop_plain pending :
  forall decoder buffer st,
    finishStream buffer = ret tt ->
    (forall n, (n < List.length pending)%nat ->
       JSON_parse (buffer ++
                   snd (decode_stream decoder (List.concat (firstn (S n) pending))))
       = None) ->
    trace (readLoop decoder buffer pending Closed) =
      flat_map
        (fun n => [ReaderRead;
                   SetAnswer (VString (buffer ++
                     snd (decode_stream decoder (List.concat (firstn (S n) pending)))))])
        (seq 0 (List.length pending)) ++ [ReaderRead] /\
    answer (run st (trace (readLoop decoder buffer pending Closed))) =
      match pending with
      | [] => answer st
      | _ => VString (buffer ++ snd (decode_stream decoder (List.concat pending)))
      end /\
    sources (run st (trace (readLoop decoder buffer pending Closed))) = sources st /\
    error (run st (trace (readLoop decoder buffer pending Closed))) = error st.
Proof.
  induction pending as [|c rest IH]; intros decoder buffer st Hb H.
  - rewrite readLoop_nil, bind_emit, Hb. now destruct st.
  - assert (H0 : JSON_parse (buffer ++ snd (decode_stream decoder c)) = None).
    { specialize (H 0%nat ltac:(simpl; lia)). cbn [firstn List.concat] in H.
      now rewrite app_nil_r in H. }
    assert (E := processChunk_parse_fails decoder buffer c H0).
    assert (Hb' : finishStream (buffer ++ snd (decode_stream decoder c)) = ret tt)
      by (apply finishStream_unparsed; now left).
    assert (Hstep : forall cs,
               (buffer ++ snd (decode_stream decoder c)) ++
               snd (decode_stream (fst (decode_stream decoder c)) (List.concat cs)) =
               buffer ++ snd (decode_stream decoder (List.concat (c :: cs)))).
    { intros cs. cbn [List.concat]. rewrite decode_stream_app. cbn [snd].
      now rewrite app_assoc. }
    assert (H' : forall n, (n < List.length rest)%nat ->
               JSON_parse ((buffer ++ snd (decode_stream decoder c)) ++
                           snd (decode_stream (fst (decode_stream decoder c))
                                  (List.concat (firstn (S n) rest)))) = None).
    { intros n Hn. rewrite Hstep.
      apply (H (S n)). simpl. lia. }
    destruct (IH (fst (decode_stream decoder c))
                 (buffer ++ snd (decode_stream decoder c))
                 (run st [ReaderRead;
                          SetAnswer (VString (buffer ++ snd (decode_stream decoder c)))])
                 Hb' H') as (IHt & IHa & IHs & IHe).
    rewrite (readLoop_step _ _ _ _ _ _ _ _ E). cbn [trace fst].
    repeat split.
    + rewrite IHt. cbn [List.length seq flat_map]. rewrite flat_map_seq_shift.
      rewrite (flat_map_ext
                 (fun n => [ReaderRead;
                            SetAnswer (VString ((buffer ++ snd (decode_stream decoder c)) ++
                              snd (decode_stream (fst (decode_stream decoder c))
                                     (List.concat (firstn (S n) rest)))))])
                 (fun n => [ReaderRead;
                            SetAnswer (VString (buffer ++
                              snd (decode_stream decoder
                                     (List.concat (firstn (S (S n)) (c :: rest))))))]))
        by (intros n; now rewrite Hstep).
      change (firstn 1 (c :: rest)) with [c]. cbn [List.concat].
      now rewrite app_nil_r.
    + change (ReaderRead :: ?a ++ ?b) with ((ReaderRead :: a) ++ b).
      rewrite run_app, IHa. destruct rest as [|c' rest'].
      * cbn [List.concat]. rewrite app_nil_r. now destruct st.
      * now rewrite Hstep.
    + change (ReaderRead :: ?a ++ ?b) with ((ReaderRead :: a) ++ b).
      rewrite run_app, IHs. now destruct st.
    + change (ReaderRead :: ?a ++ ?b) with ((ReaderRead :: a) ++ b).
      rewrite run_app, IHe. now destruct st.
Qed.

Lemma statesAtReads_reveal (g : nat -> jsstring) l :
  forall st,
    map answer (statesAtReads st
                  (flat_map (fun n => [ReaderRead; SetAnswer (VString (g n))]) l
                   ++ [ReaderRead; SetIsLoading false])) =
    answer st :: map (fun n => VString (g n)) l.
Proof.
  induction l as [|n l IH]; intros st; [reflexivity|].
  cbn [flat_map app statesAtReads map]. now rewrite IH.
Qed.

(** X11.  Plain text streams as a typing reveal, whatever the bytes and
    wherever they are cut: when no accumulated text is a JSON text, the
    [answer] state at each read of the body is the text decoded from all
    the chunks read so far (characters whose bytes straddle two chunks
    included), and the run ends with [answer] the decoded text of the
    whole body, [sources] the empty array and [error] null. *)
Theorem plain_text_reveal request st0 r b :
  network endpoint request = Fulfilled r ->
  ok r = true ->
  useApiStream.isJsonContentType r = false ->
  body r = Some b ->
  ending b = Closed ->
  neverParses (chunks b) = true ->
  map answer (statesAtReads st0 (trace (query request))) =
    map (fun n => VString (textAfter (chunks b) n))
        (seq 0 (S (List.length (chunks b)))) /\
  run st0 (trace (query request)) =
    mkState (VString (decoded (List.concat (chunks b)))) (VArray []) false None.
Proof.
  intros Hn Hok Hct Hb He Hnp.
  unfold neverParses in Hnp. rewrite forallb_forall in Hnp.
  assert (H : forall n, (n < List.length (chunks b))%nat ->
              JSON_parse ([] ++ snd (decode_stream newTextDecoder
                                       (List.concat (firstn (S n) (chunks b)))))
              = None).
  { intros n Hlt. specialize (Hnp n). rewrite in_seq in Hnp.
    unfold textAfter, decoded in Hnp. cbn [app].
    destruct (JSON_parse _); [|reflexivity].
    discriminate Hnp. lia. }
  rewrite (query_stream_closed _ _ _ Hn Hok Hct Hb He). cbn [trace fst].
  destruct (readLoop_plain (chunks b) newTextDecoder [] clearedState
              finishStream_empty H) as (Ht & Ha & Hs & Herr).
  split.
  - rewrite Ht. destruct st0. cbn [trace fst useApiStream.queryStart app statesAtReads
                                   apply_event bind emit].
    rewrite <- app_assoc. cbn [app].
    rewrite (statesAtReads_reveal
               (fun n => [] ++ snd (decode_stream newTextDecoder
                                      (List.concat (firstn (S n) (chunks b)))))).
    rewrite <- cons_seq, <- seq_shift. cbn [map]. now rewrite map_map.
  - rewrite run_app, run_cleared, !run_cons. cbn [apply_event].
    rewrite run_app. unfold trace in *.
    set (st := run clearedState _) in *. clearbody st.
    destruct (chunks b) as [|c cs]; destruct st; simpl in *; now subst.
Qed.

Lemma query_stream_answer request st0 r b before value :
  network endpoint request = Fulfilled r ->
  ok r = true ->
  useApiStream.isJsonContentType r = false ->
  body r = Some b ->
  chunks b = before ++ [value] ->
  answer (run st0 (trace (query request))) = shownFor (bufferAt before value).
Proof.
  intros Hn Hok Hct Hb Hc.
  destruct (query_stream_trace _ _ _ Hn Hok Hct Hb) as (tail & Ht & Htail).
  rewrite Ht, Hc, run_app, run_app.
  destruct (Htail (run (run st0 (trace useApiStream.queryStart ++
                                   [Fetch endpoint request; GetReader]))
                       (trace (readLoop newTextDecoder [] (before ++ [value])
                                 (ending b))))) as [-> _].
  now destruct (readLoop_leaves before newTextDecoder [] value (ending b)
                  (run st0 (trace useApiStream.queryStart ++
                              [Fetch endpoint request; GetReader]))) as [-> _].
Qed.

(** X12.  Data after a complete document replaces the answer: when the
    buffer parses at one chunk (to a value other than null) and a last
    chunk follows, that chunk is parsed on its own, and [answer] ends as
    what it alone shows: its [answer] property, or its bare text, for a
    trailing line feed the line feed. *)
Theorem trailing_chunk_replaces_answer request st0 r b before document value doc :
  network endpoint request = Fulfilled r ->
  ok r = true ->
  useApiStream.isJsonContentType r = false ->
  body r = Some b ->
  chunks b = before ++ [document; value] ->
  JSON_parse (bufferAt before document) = Some doc ->
  doc <> VNull ->
  bufferAt (before ++ [document]) value =
    snd (decode_stream (fst (loopState newTextDecoder [] (before ++ [document])))
           value) /\
  answer (run st0 (trace (query request))) =
    shownFor (bufferAt (before ++ [document]) value).
Proof.
  intros Hn Hok Hct Hb Hc Hp Hnull.
  pose proof (JSON_parse_defined _ _ Hp) as Hdef.
  unfold useApiStream.bufferAt in Hp.
  pose proof (processChunk_parse_ok _ _ _ _ Hp Hnull Hdef) as E.
  split.
  - unfold useApiStream.bufferAt at 1.
    assert (Hs : snd (loopState newTextDecoder [] (before ++ [document])) = [])
      by (rewrite loopState_app; now rewrite (loopState_cons _ _ _ [] _ _ _ E)).
    now rewrite Hs.
  - apply (query_stream_answer _ _ _ _ _ _ Hn Hok Hct Hb).
    rewrite Hc, <- app_assoc. reflexivity.
Qed.

(** ** The callers: the search bar and the application *)

Lemma trimStart_blank s : forallb isTrimmable s = true -> trimStart s = [].
Proof.
  induction s as [|c s IH]; [reflexivity|]. simpl.
  intros H. apply andb_prop in H as [Hc Hs]. now rewrite Hc, IH.
Qed.

Lemma trim_blank s : forallb isTrimmable s = true -> trim s = [].
Proof. intros H. unfold trim. now rewrite (trimStart_blank _ H). Qed.

Lemma trimStart_clean s : startsClean (trimStart s) = true.
Proof.
  induction s as [|c s IH]; [reflexivity|]. simpl.
  destruct (isTrimmable c) eqn:Hc; [exact IH|]. simpl. now rewrite Hc.
Qed.

Lemma trimStart_of_clean s : startsClean s = true -> trimStart s = s.
Proof.
  destruct s as [|c s]; [reflexivity|]. simpl. intros H.
  now destruct (isTrimmable c).
Qed.

Lemma trimStart_snoc l c :
  isTrimmable c = false -> trimStart (l ++ [c]) = trimStart l ++ [c].
Proof.
  intros Hc. induction l as [|a l IH]; simpl; [now rewrite Hc|].
  now destruct (isTrimmable a).
Qed.

(** [trim] leaves a string with no strippable character at either end. *)
Lemma trim_clean s : startsClean (trim s) = true /\ endsClean (trim s) = true.
Proof.
  unfold endsClean, trim. rewrite rev_involutive.
  split; [|apply trimStart_clean].
  pose proof (trimStart_clean s) as Hw.
  destruct (trimStart s) as [|c w]; [reflexivity|].
  simpl in Hw. apply negb_true_iff in Hw.
  cbn [rev]. rewrite (trimStart_snoc _ _ Hw), rev_app_distr. simpl.
  now rewrite Hw.
Qed.

Lemma trim_idempotent s : trim (trim s) = trim s.
Proof.
  destruct (trim_clean s) as [Hs He]. unfold endsClean in He.
  unfold trim at 1.
  now rewrite (trimStart_of_clean _ Hs), (trimStart_of_clean _ He), rev_involutive.
Qed.

Lemma reset_then st t :
  run st (trace useApiStream.reset ++ trace useApiStream.queryStart ++ t) =
  run clearedState t.
Proof. now rewrite !run_app, run_cleared. Qed.

Lemma handleSearch_trace queryText :
  handleSearch queryText =
    (trace useApiStream.reset ++
       trace (query (mkRequest queryText (Some (5 # 1)) None)),
     Normal tt).
Proof.
  unfold App.handleSearch.
  pose proof (query_resolves (mkRequest queryText (Some (5 # 1)) None)) as Hc.
  destruct (query (mkRequest queryText (Some (5 # 1)) None)) as [t c].
  simpl in *. now subst c.
Qed.

(** X13.  [handleSearch]: a search resets and then queries.  It sends
    exactly one request, the POST of the text it was given with [top_k]
    5 and no source filter; it never rejects; and the [reset] it begins
    with changes nothing of what the run leaves, since [query] clears the
    same state itself. *)
Theorem handleSearch_is_one_query queryText st0 :
  filter isFetch (trace (handleSearch queryText)) =
    [Fetch endpoint (mkRequest queryText (Some (5 # 1)) None)] /\
  completion (handleSearch queryText) = Normal tt /\
  run st0 (trace (handleSearch queryText)) =
    run st0 (trace (query (mkRequest queryText (Some (5 # 1)) None))).
Proof.
  rewrite handleSearch_trace. cbn [trace completion fst snd].
  destruct (query_shape (mkRequest queryText (Some (5 # 1)) None))
    as (t & Hp & _ & Ht).
  repeat split.
  - rewrite Ht, !filter_app. cbn [filter isFetch useApiStream.reset].
    rewrite !filter_app, (phase_filter isFetch t); [|now intros []|exact Hp].
    now destruct (completion (queryBody _)).
  - destruct (query_starts (mkRequest queryText (Some (5 # 1)) None)) as [u Hu].
    now rewrite Hu, reset_then, run_app, run_cleared.
Qed.

(** X14.  A submit of the search bar with a blank query (empty, or only
    white space), or while a query is loading, does nothing in the
    application: no request is sent and no state changes. *)
Theorem blank_or_busy_submit_is_dropped st input :
  isLoading st = true \/ forallb isTrimmable input = true ->
  SearchBar.handleSubmit (isLoading st) input = [SearchBar.PreventDefault] /\
  submit st input = [].
Proof.
  intros H. unfold App.submit, SearchBar.handleSubmit.
  destruct H as [-> | H].
  - now rewrite andb_false_r.
  - now rewrite (trim_blank _ H).
Qed.

(** X15.  A submit with some text, when no query is loading, starts one
    search for the trimmed text: [onSubmit] is called once with it, the
    one request sent carries it, and it has no white space left at
    either end (trimming it again changes nothing). *)
Theorem submit_searches_trimmed_text st input :
  isLoading st = false ->
  trim input <> [] ->
  SearchBar.handleSubmit (isLoading st) input =
    [SearchBar.PreventDefault; SearchBar.OnSubmit (trim input)] /\
  submit st input = trace (handleSearch (trim input)) /\
  filter isFetch (submit st input) =
    [Fetch endpoint (mkRequest (trim input) (Some (5 # 1)) None)] /\
  startsClean (trim input) = true /\
  endsClean (trim input) = true /\
  trim (trim input) = trim input.
Proof.
  intros Hl Hq.
  assert (Hs : SearchBar.handleSubmit (isLoading st) input =
               [SearchBar.PreventDefault; SearchBar.OnSubmit (trim input)]).
  { unfold SearchBar.handleSubmit. rewrite Hl.
    destruct (trim input); [congruence|reflexivity]. }
  assert (Hsub : submit st input = trace (handleSearch (trim input))).
  { unfold App.submit. rewrite Hs. cbn [flat_map]. now rewrite app_nil_r. }
  split; [exact Hs|]. split; [exact Hsub|].
  split; [|split; [apply trim_clean|split; [apply trim_clean|apply trim_idempotent]]].
  rewrite Hsub, handleSearch_trace. cbn [trace fst].
  destruct (query_shape (mkRequest (trim input) (Some (5 # 1)) None))
    as (t & Hp & _ & Ht).
  rewrite Ht, !filter_app. cbn [filter isFetch useApiStream.reset].
  rewrite !filter_app, (phase_filter isFetch t); [|now intros []|exact Hp].
  now destruct (completion (queryBody _)).
Qed.

(** X16.  The submit button is disabled exactly when a submit would be
    dropped: the [disabled] attribute and the guard of [handleSubmit]
    agree. *)
Theorem button_disabled_iff_submit_dropped isLoading input :
  SearchBar.submitDisabled isLoading input = true <->
  SearchBar.handleSubmit isLoading input = [SearchBar.PreventDefault].
Proof.
  unfold SearchBar.submitDisabled, SearchBar.handleSubmit.
  destruct isLoading, (toBoolean (VString (trim input))); simpl;
    split; congruence.
Qed.

(** X17.  "Try again" does not try again: the button of the error panel
    calls [reset], which sends nothing; with no query loading, the error
    panel goes and the welcome panel comes back. *)
Theorem try_again_shows_welcome st :
  isLoading st = false ->
  existsb isNetworkEvent (trace useApiStream.reset) = false /\
  App.showsError (run st (trace useApiStream.reset)) = false /\
  App.showsSpinner (run st (trace useApiStream.reset)) = false /\
  App.showsWelcome (run st (trace useApiStream.reset)) = true.
Proof.
  intros H. destruct st. simpl in H. subst. repeat split.
Qed.

(** ** Reads and renders *)

Lemma count_app p t1 t2 : count p (t1 ++ t2) = (count p t1 + count p t2)%nat.
Proof. unfold count. now rewrite filter_app, length_app. Qed.

Lemma count_cons p ev t :
  count p (ev :: t) = ((if p ev then 1 else 0) + count p t)%nat.
Proof. unfold count. simpl. now destruct (p ev). Qed.

Lemma readLoop_counts pending :
  forall decoder buffer fin,
    finishStream buffer = ret tt ->
    count isReaderRead (trace (readLoop decoder buffer pending fin))
      = S (List.length pending) /\
    count isSetAnswer (trace (readLoop decoder buffer pending fin))
      = List.length pending /\
    count isGetReader (trace (readLoop decoder buffer pending fin)) = 0%nat /\
    count isResponseJson (trace (readLoop decoder buffer pending fin)) = 0%nat.
Proof.
  induction pending as [|value rest IH]; intros decoder buffer fin Hb.
  - rewrite readLoop_nil, bind_emit.
    destruct fin; [rewrite Hb|]; repeat split.
  - destruct (processChunk_shows decoder buffer value)
      as (more & decoder' & buffer' & E & Hb' & Hm).
    rewrite (readLoop_step _ _ _ _ _ _ _ _ E). cbn [trace fst].
    destruct (IH decoder' buffer' fin Hb') as (IHr & IHa & IHg & IHj).
    cbn [app]. rewrite !count_cons, !count_app, IHr, IHa, IHg, IHj.
    cbn [isReaderRead isSetAnswer isGetReader isResponseJson List.length].
    destruct Hm as [-> | (s & -> & _)]; repeat split.
Qed.

(** X18.  A streamed body is read to its end, one chunk at a time: the
    run takes the reader once, reads once per chunk and once more for the
    end (closed or failed), never calls [response.json()], and calls
    [setAnswer] exactly once per chunk after the clearing one. *)
Theorem stream_is_read_chunk_by_chunk request r b :
  network endpoint request = Fulfilled r ->
  ok r = true ->
  useApiStream.isJsonContentType r = false ->
  body r = Some b ->
  count isGetReader (trace (query request)) = 1%nat /\
  count isReaderRead (trace (query request)) = S (List.length (chunks b)) /\
  count isResponseJson (trace (query request)) = 0%nat /\
  count isSetAnswer (trace (query request)) = S (List.length (chunks b)).
Proof.
  intros Hn Hok Hct Hb.
  pose proof (queryBody_fulfilled _ _ Hn) as Hq.
  rewrite (handleResponse_stream _ _ Hok Hct Hb) in Hq.
  destruct (readLoop_counts (chunks b) newTextDecoder [] (ending b)
              finishStream_empty) as (Hr & Ha & Hg & Hj).
  destruct (ending b) as [|e] eqn:He.
  - rewrite (readStream_closed _ He) in Hq. rewrite (query_normal _ _ Hq).
    cbn [trace fst useApiStream.queryStart bind emit app].
    rewrite !count_cons, !count_app, Hr, Ha, Hg, Hj.
    repeat split; unfold count; simpl; lia.
  - rewrite (readStream_errored _ _ He) in Hq. rewrite (query_abrupt _ _ _ Hq).
    cbn [trace fst useApiStream.queryStart bind emit app].
    rewrite !count_cons, !count_app, !count_cons, Hr, Ha, Hg, Hj.
    repeat split; unfold count; simpl; lia.
Qed.

Lemma utf8_decode_complete bs :
  endsComplete bs = true -> utf8_decode bs = decoded bs.
Proof.
  unfold endsComplete, utf8_decode, decoded, decode_stream, newTextDecoder.
  cbn [utf8 bomSeen].
  destruct (utf8_run utf8_init bs) as [s cps].
  destruct (serialize false cps) as [seen out] eqn:Hs. cbn [fst snd utf8].
  intros H. unfold utf8_flush. rewrite H, app_nil_r, Hs. reflexivity.
Qed.

(** X19.  The two paths agree on a complete document: when the body (not
    cut inside a character) parses to a value other than null, serving it
    as application/json and streaming it in one chunk leave the same
    [answer]; they leave the same [sources] as well when the document's
    [sources] is truthy.  (When it is not, the JSON path stores it as it
    is and the streaming path keeps the empty array.) *)
Theorem json_and_stream_agree request1 request2 st1 st2 r1 r2 b1 b2 bytes doc :
  network endpoint request1 = Fulfilled r1 ->
  ok r1 = true -> useApiStream.isJsonContentType r1 = true ->
  body r1 = Some b1 -> ending b1 = Closed -> List.concat (chunks b1) = bytes ->
  network endpoint request2 = Fulfilled r2 ->
  ok r2 = true -> useApiStream.isJsonContentType r2 = false ->
  body r2 = Some b2 -> chunks b2 = [bytes] ->
  endsComplete bytes = true ->
  JSON_parse (utf8_decode bytes) = Some doc ->
  doc <> VNull ->
  answer (run st1 (trace (query request1))) =
    answer (run st2 (trace (query request2))) /\
  sources (run st1 (trace (query request1))) = propertyOf doc (js "sources") /\
  sources (run st2 (trace (query request2))) =
    (if toBoolean (propertyOf doc (js "sources"))
     then propertyOf doc (js "sources") else VArray []).
Proof.
  intros Hn1 Hok1 Hct1 Hb1 He1 Hc1 Hn2 Hok2 Hct2 Hb2 Hc2 Hcomplete Hp Hnull.
  pose proof (JSON_parse_defined _ _ Hp) as Hdef.
  assert (H1 : run st1 (trace (query request1)) =
               mkState (propertyOf doc (js "answer"))
                 (propertyOf doc (js "sources")) false None).
  { assert (Hr : handleResponse r1 =
                   ([ResponseJson; SetAnswer (propertyOf doc (js "answer"));
                     SetSources (propertyOf doc (js "sources"))], Normal tt)).
    { unfold useApiStream.handleResponse, useApiStream.responseJson.
      rewrite Hok1, Hct1, Hb1, He1, Hc1. simpl negb. cbv iota.
      unfold useApiStream.jsonParse. rewrite Hp.
      destruct doc; try congruence; reflexivity. }
    pose proof (queryBody_fulfilled _ _ Hn1) as Hq. rewrite Hr in Hq.
    rewrite (query_normal _ _ Hq). now destruct st1. }
  rewrite (utf8_decode_complete _ Hcomplete) in Hp.
  assert (E := processChunk_parse_ok newTextDecoder [] bytes doc Hp Hnull Hdef).
  destruct (query_stream_trace _ _ _ Hn2 Hok2 Hct2 Hb2) as (tail & Ht & Htail).
  rewrite H1, Ht, Hc2, !run_app.
  rewrite (readLoop_step _ _ _ _ (ending b2) _ _ _ E), readLoop_nil, bind_emit.
  assert (Hend : trace (match ending b2 with
                        | Closed => finishStream []
                        | Errored e => throw e
                        end) = []) by now destruct (ending b2).
  cbn [trace fst]. rewrite Hend.
  match goal with
  | |- context [run ?s tail] => destruct (Htail s) as [Ha Hs]; rewrite Ha, Hs
  end.
  rewrite run_cleared.
  destruct (toBoolean (propertyOf doc (js "sources"))); repeat split.
Qed.

End HookProperties.

(** * The properties on concrete runs *)

Lemma reset_example :
  run (mkState (VString (js "old")) (VArray [finalCitation]) true (Some (js "failed")))
      (trace useApiStream.reset)
  = mkState (VString []) (VArray []) true None.
Proof. reflexivity. Qed.

Lemma streaming_json_reveal_witness :
  (answering (streamed finalInTwo) demoEndpoint someRequest
     = Fulfilled (streamed finalInTwo) /\
   ok (streamed finalInTwo) = true /\
   useApiStream.isJsonContentType (streamed finalInTwo) = false /\
   body (streamed finalInTwo) = Some (mkBody finalInTwo Closed) /\
   ending (mkBody finalInTwo Closed) = Closed /\
   List.concat (chunks (mkBody finalInTwo Closed)) = finalDocument /\
   Forall (fun c => c <> []) (chunks (mkBody finalInTwo Closed))) /\
  answer (run initialState (trace (demoQuery (streamed finalInTwo))))
    = VString (js "final") /\
  sources (run initialState (trace (demoQuery (streamed finalInTwo))))
    = VArray [finalCitation] /\
  error (run initialState (trace (demoQuery (streamed finalInTwo)))) = None /\
  isLoading (run initialState (trace (demoQuery (streamed finalInTwo)))) = false /\
  completion (demoQuery (streamed finalInTwo)) = Normal tt.
Proof.
  assert (Hne : Forall (fun c : list byte => c <> []) finalInTwo)
    by (repeat constructor; intros H; vm_compute in H; discriminate H).
  assert (Hcat : List.concat finalInTwo = finalDocument)
    by (vm_compute; reflexivity).
  split.
  - repeat split; assumption.
  - apply (streaming_json_reveal anySyntaxErrorMessage anyTypeErrorMessage None
             (answering (streamed finalInTwo)) someRequest initialState
             (streamed finalInTwo) (mkBody finalInTwo Closed));
      solve [reflexivity | assumption].
Defined.

(** An empty chunk after the document is not part of a partition of it;
    were one delivered, the loop would parse the empty buffer, fail, and
    show the empty text. *)
Lemma trailing_empty_chunk_clears_answer :
  answer (run initialState (trace (demoQuery (streamed (finalInTwo ++ [[]])))))
    = VString [] /\
  sources (run initialState (trace (demoQuery (streamed (finalInTwo ++ [[]])))))
    = VArray [finalCitation].
Proof. split; vm_compute; reflexivity. Qed.

Lemma streaming_text_reveal_witness :
  (answering (streamed helloChunks) demoEndpoint someRequest
     = Fulfilled (streamed helloChunks) /\
   ok (streamed helloChunks) = true /\
   useApiStream.isJsonContentType (streamed helloChunks) = false /\
   body (streamed helloChunks) = Some (mkBody helloChunks Closed)) /\
  useApiStream.bufferHistory anySyntaxErrorMessage anyTypeErrorMessage
      newTextDecoder [] helloChunks
    = [js "Hel"; js "Hello wor"; js "Hello world"] /\
  map answer (statesAtReads initialState (trace (demoQuery (streamed helloChunks))))
    = map VString
        ([] :: useApiStream.bufferHistory anySyntaxErrorMessage
                 anyTypeErrorMessage newTextDecoder [] helloChunks) /\
  answer (run initialState (trace (demoQuery (streamed helloChunks))))
    = VString (js "Hello world") /\
  sources (run initialState (trace (demoQuery (streamed helloChunks)))) = VArray [] /\
  error (run initialState (trace (demoQuery (streamed helloChunks)))) = None /\
  isLoading (run initialState (trace (demoQuery (streamed helloChunks)))) = false /\
  completion (demoQuery (streamed helloChunks)) = Normal tt.
Proof.
  split.
  - repeat split.
  - apply (streaming_text_reveal anySyntaxErrorMessage anyTypeErrorMessage None
             (answering (streamed helloChunks)) someRequest initialState
             (streamed helloChunks)); reflexivity.
Defined.

Lemma json_round_trip_witness :
  (answering (jsonResponse [answerDocument]) demoEndpoint someRequest
     = Fulfilled (jsonResponse [answerDocument]) /\
   ok (jsonResponse [answerDocument]) = true /\
   useApiStream.isJsonContentType (jsonResponse [answerDocument]) = true /\
   body (jsonResponse [answerDocument]) = Some (mkBody [answerDocument] Closed) /\
   ending (mkBody [answerDocument] Closed) = Closed /\
   List.concat (chunks (mkBody [answerDocument] Closed)) = answerDocument) /\
  answer (run initialState (trace (demoQuery (jsonResponse [answerDocument]))))
    = VString (js "A") /\
  sources (run initialState (trace (demoQuery (jsonResponse [answerDocument]))))
    = VArray [] /\
  error (run initialState (trace (demoQuery (jsonResponse [answerDocument])))) = None /\
  isLoading (run initialState (trace (demoQuery (jsonResponse [answerDocument]))))
    = false /\
  completion (demoQuery (jsonResponse [answerDocument])) = Normal tt.
Proof.
  assert (Hcat : List.concat [answerDocument] = answerDocument)
    by apply app_nil_r.
  split.
  - repeat split; exact Hcat.
  - apply (json_round_trip anySyntaxErrorMessage anyTypeErrorMessage None
             (answering (jsonResponse [answerDocument])) someRequest initialState
             (jsonResponse [answerDocument]) (mkBody [answerDocument] Closed));
      solve [reflexivity | exact Hcat].
Defined.

Lemma error_containment_witness :
  completion (demoQueryBody (interrupted [ascii_bytes "Hel"]))
    = Abrupt (ErrorObject (js "Failed to read streaming response")) /\
  (let e := ErrorObject (js "Failed to read streaming response") in
   let answered :=
     answering (interrupted [ascii_bytes "Hel"]) demoEndpoint someRequest in
   let message := js "Failed to read streaming response" in
   let final :=
     run initialState (trace (demoQuery (interrupted [ascii_bytes "Hel"]))) in
   error final = Some message /\
   answer final = partialAnswer answered /\
   sources final = last (sourcesAssigned answered) (VArray []) /\
   isLoading final = false /\
   completion (demoQuery (interrupted [ascii_bytes "Hel"])) = Normal tt /\
   trace (demoQuery (interrupted [ascii_bytes "Hel"])) =
     trace useApiStream.queryStart ++
     trace (demoQueryBody (interrupted [ascii_bytes "Hel"])) ++
     [SetError (Some message); ConsoleError (js "API query error:") e;
      SetIsLoading false] /\
   (forall x, answered = Rejected x -> e = x) /\
   (forall r, answered = Fulfilled r -> ok r = false ->
      e = ErrorObject (js "API request failed: " ++ statusText r)) /\
   (forall r, answered = Fulfilled r -> ok r = true ->
      useApiStream.isJsonContentType r = false -> body r = None ->
      e = ErrorObject (js "No response body received")) /\
   (forall r b x, answered = Fulfilled r -> ok r = true ->
      useApiStream.isJsonContentType r = false -> body r = Some b ->
      ending b = Errored x ->
      e = ErrorObject (js "Failed to read streaming response"))).
Proof.
  assert (H : completion (demoQueryBody (interrupted [ascii_bytes "Hel"]))
              = Abrupt (ErrorObject (js "Failed to read streaming response")))
    by (vm_compute; reflexivity).
  split; [exact H|].
  exact (error_containment anySyntaxErrorMessage anyTypeErrorMessage None
           (answering (interrupted [ascii_bytes "Hel"])) someRequest initialState
           (ErrorObject (js "Failed to read streaming response")) H).
Defined.

(** On that run the partial answer is "Hel", and no [sources] were
    assigned. *)
Lemma interrupted_partial_answer :
  partialAnswer
    (answering (interrupted [ascii_bytes "Hel"]) demoEndpoint someRequest)
    = VString (js "Hel") /\
  sourcesAssigned
    (answering (interrupted [ascii_bytes "Hel"]) demoEndpoint someRequest) = [].
Proof. split; vm_compute; reflexivity. Qed.

(** The read that fails after "Hel" leaves "Hel" on display. *)
Lemma interrupted_stream_keeps_partial_answer :
  run initialState (trace (demoQuery (interrupted [ascii_bytes "Hel"])))
  = mkState (VString (js "Hel")) (VArray []) false
      (Some (js "Failed to read streaming response")).
Proof. vm_compute. reflexivity. Qed.

Lemma non_success_status_witness :
  (answering serverError demoEndpoint someRequest = Fulfilled serverError /\
   ok serverError = false) /\
  error (run initialState (trace (demoQuery serverError)))
    = Some (js "API request failed: " ++ statusText serverError) /\
  includes (js "API request failed: " ++ statusText serverError)
           (statusText serverError) = true /\
  isLoading (run initialState (trace (demoQuery serverError))) = false /\
  answer (run initialState (trace (demoQuery serverError))) = VString [] /\
  existsb isBodyEvent (trace (demoQuery serverError)) = false /\
  trace (demoQuery serverError) =
    [SetIsLoading true; SetError None; SetAnswer (VString []);
     SetSources (VArray []); Fetch demoEndpoint someRequest;
     SetError (Some (js "API request failed: " ++ statusText serverError));
     ConsoleError (js "API query error:")
       (ErrorObject (js "API request failed: " ++ statusText serverError));
     SetIsLoading false].
Proof.
  split.
  - split; reflexivity.
  - apply (non_success_status anySyntaxErrorMessage anyTypeErrorMessage None
             (answering serverError) someRequest initialState serverError);
      reflexivity.
Defined.

Lemma server_error_message :
  error (run initialState (trace (demoQuery serverError)))
  = Some (js "API request failed: Internal Server Error").
Proof. vm_compute. reflexivity. Qed.

Lemma empty_success_body_witness :
  (answering emptyResponse demoEndpoint someRequest = Fulfilled emptyResponse /\
   ok emptyResponse = true /\
   useApiStream.isJsonContentType emptyResponse = false /\
   body emptyResponse = None) /\
  error (run initialState (trace (demoQuery emptyResponse)))
    = Some (js "No response body received") /\
  isLoading (run initialState (trace (demoQuery emptyResponse))) = false.
Proof.
  split.
  - repeat split.
  - apply (empty_success_body anySyntaxErrorMessage anyTypeErrorMessage None
             (answering emptyResponse) someRequest initialState emptyResponse);
      reflexivity.
Defined.

(** The end-of-stream parse on the runs above. *)
Lemma done_branch_parse_example :
  demoQuery (streamed finalInTwo)
  = useApiStream.query_noReparse anySyntaxErrorMessage anyTypeErrorMessage None
      (answering (streamed finalInTwo)) someRequest.
Proof. vm_compute. reflexivity. Qed.


(** The whole documents on three runs: a final document delivered one
    byte at a time is one whole document, assigned once; two documents
    are two; a response that is not [ok] has none. *)
Lemma whole_documents_examples :
  (List.length (wholeDocuments
     (answering (streamed (map (fun b => [b]) finalDocument))
        demoEndpoint someRequest)) = 1%nat /\
   populations
     (trace (demoQuery (streamed (map (fun b => [b]) finalDocument)))) = 1%nat) /\
  List.length (wholeDocuments
    (answering (streamed [finalDocument; finalDocument])
       demoEndpoint someRequest)) = 2%nat /\
  wholeDocuments (answering serverError demoEndpoint someRequest) = [] /\
  populations (trace (demoQuery serverError)) = 0%nat.
Proof. repeat split; vm_compute; reflexivity. Qed.

Lemma unanswered_value_clears_answer_witness :
  (answering (streamed [ascii_bytes "42"]) demoEndpoint someRequest
     = Fulfilled (streamed [ascii_bytes "42"]) /\
   ok (streamed [ascii_bytes "42"]) = true /\
   useApiStream.isJsonContentType (streamed [ascii_bytes "42"]) = false /\
   body (streamed [ascii_bytes "42"]) = Some (mkBody [ascii_bytes "42"] Closed) /\
   chunks (mkBody [ascii_bytes "42"] Closed) = [] ++ ascii_bytes "42" :: [] /\
   JSON_parse (demoBufferAt [] (ascii_bytes "42")) = Some (VNumber (42 # 1)) /\
   VNumber (42 # 1) <> VNull /\
   hasProperty (VNumber (42 # 1)) (js "answer") = false) /\
  In (SetAnswer VUndefined) (trace (demoQuery (streamed [ascii_bytes "42"]))) /\
  snd (demoLoopState ([] ++ [ascii_bytes "42"])) = [].
Proof.
  assert (Hp : JSON_parse (demoBufferAt [] (ascii_bytes "42"))
               = Some (VNumber (42 # 1))) by (vm_compute; reflexivity).
  assert (Hn : VNumber (42 # 1) <> VNull) by discriminate.
  split.
  - repeat split; assumption.
  - apply (unanswered_value_clears_answer anySyntaxErrorMessage
             anyTypeErrorMessage None (answering (streamed [ascii_bytes "42"]))
             someRequest (streamed [ascii_bytes "42"])
             (mkBody [ascii_bytes "42"] Closed) [] (ascii_bytes "42") []
             (VNumber (42 # 1)));
      solve [reflexivity | assumption].
Defined.

(** After the body 42, and after a bare quoted string, the [answer]
    state is [undefined]. *)
Lemma scalar_bodies_end_undefined :
  answer (run initialState (trace (demoQuery (streamed [ascii_bytes "42"]))))
    = VUndefined /\
  answer (run initialState (trace (demoQuery (streamed [bytesq "'hi'"]))))
    = VUndefined.
Proof. split; vm_compute; reflexivity. Qed.

(** C10 as stated fails at null: it is a JSON value with no [answer]
    property, yet no [setAnswer(undefined)] happens; the text null is
    shown and the buffer is kept. *)
Lemma null_body_stays_text :
  JSON_parse (demoBufferAt [] (ascii_bytes "null")) = Some VNull /\
  hasProperty VNull (js "answer") = false /\
  ~ In (SetAnswer VUndefined) (trace (demoQuery (streamed [ascii_bytes "null"]))) /\
  answer (run initialState (trace (demoQuery (streamed [ascii_bytes "null"]))))
    = VString (js "null") /\
  snd (demoLoopState [ascii_bytes "null"]) = js "null".
Proof.
  split; [vm_compute; reflexivity|].
  split; [reflexivity|].
  split; [|split; vm_compute; reflexivity].
  intros H. vm_compute in H.
  repeat (destruct H as [H|H]; [discriminate H|]). exact H.
Qed.

(** * More concrete runs *)

Lemma fetch_rejection_witness :
  failing (OtherThrown VNull) demoEndpoint someRequest = Rejected (OtherThrown VNull) /\
  trace (demoFailedQuery (OtherThrown VNull)) =
    [SetIsLoading true; SetError None; SetAnswer (VString []);
     SetSources (VArray []); Fetch demoEndpoint someRequest;
     SetError (Some (useApiStream.errorMessageOf (OtherThrown VNull)));
     ConsoleError (js "API query error:") (OtherThrown VNull); SetIsLoading false] /\
  run initialState (trace (demoFailedQuery (OtherThrown VNull))) =
    mkState (VString []) (VArray []) false (Some (js "An unknown error occurred")).
Proof.
  split; [reflexivity|].
  exact (fetch_rejection anySyntaxErrorMessage anyTypeErrorMessage None
           (failing (OtherThrown VNull)) someRequest initialState
           (OtherThrown VNull) eq_refl).
Defined.

Lemma streamed_answer_is_last_shown_witness :
  (answering (interrupted helloChunks) demoEndpoint someRequest
     = Fulfilled (interrupted helloChunks) /\
   ok (interrupted helloChunks) = true /\
   useApiStream.isJsonContentType (interrupted helloChunks) = false /\
   body (interrupted helloChunks)
     = Some (mkBody helloChunks (Errored (OtherThrown VNull))) /\
   chunks (mkBody helloChunks (Errored (OtherThrown VNull))) =
     [ascii_bytes "Hel"; ascii_bytes "lo wor"] ++ [ascii_bytes "ld"]) /\
  answer (run initialState (trace (demoQuery (interrupted helloChunks)))) =
    shownFor (demoBufferAt [ascii_bytes "Hel"; ascii_bytes "lo wor"] (ascii_bytes "ld")).
Proof.
  split; [repeat split|].
  apply (streamed_answer_is_last_shown anySyntaxErrorMessage anyTypeErrorMessage
           None (answering (interrupted helloChunks)) someRequest initialState
           (interrupted helloChunks)
           (mkBody helloChunks (Errored (OtherThrown VNull))));
    reflexivity.
Defined.

Lemma stream_failure_message_witness :
  (answering (interrupted helloChunks) demoEndpoint someRequest
     = Fulfilled (interrupted helloChunks) /\
   ok (interrupted helloChunks) = true /\
   useApiStream.isJsonContentType (interrupted helloChunks) = false /\
   body (interrupted helloChunks)
     = Some (mkBody helloChunks (Errored (OtherThrown VNull))) /\
   ending (mkBody helloChunks (Errored (OtherThrown VNull)))
     = Errored (OtherThrown VNull)) /\
  error (run initialState (trace (demoQuery (interrupted helloChunks))))
    = Some (js "Failed to read streaming response") /\
  In (ConsoleError (js "Stream reading error:") (OtherThrown VNull))
     (trace (demoQuery (interrupted helloChunks))) /\
  isLoading (run initialState (trace (demoQuery (interrupted helloChunks)))) = false.
Proof.
  split; [repeat split|].
  apply (stream_failure_message anySyntaxErrorMessage anyTypeErrorMessage
           None (answering (interrupted helloChunks)) someRequest initialState
           (interrupted helloChunks)
           (mkBody helloChunks (Errored (OtherThrown VNull))));
    reflexivity.
Defined.

Lemma streamed_sources_stay_truthy_witness :
  (answering (streamed [bareDocument]) demoEndpoint someRequest
     = Fulfilled (streamed [bareDocument]) /\
   ok (streamed [bareDocument]) = true /\
   useApiStream.isJsonContentType (streamed [bareDocument]) = false /\
   body (streamed [bareDocument]) = Some (mkBody [bareDocument] Closed)) /\
  toBoolean (sources (run initialState (trace (demoQuery (streamed [bareDocument])))))
    = true.
Proof.
  split; [repeat split|].
  apply (streamed_sources_stay_truthy anySyntaxErrorMessage anyTypeErrorMessage
           None (answering (streamed [bareDocument])) someRequest initialState
           (streamed [bareDocument]) (mkBody [bareDocument] Closed));
    reflexivity.
Defined.

Lemma json_body_is_shown_unchecked_witness :
  (answering (jsonResponse [bareDocument]) demoEndpoint someRequest
     = Fulfilled (jsonResponse [bareDocument]) /\
   ok (jsonResponse [bareDocument]) = true /\
   useApiStream.isJsonContentType (jsonResponse [bareDocument]) = true /\
   body (jsonResponse [bareDocument]) = Some (mkBody [bareDocument] Closed) /\
   ending (mkBody [bareDocument] Closed) = Closed /\
   JSON_parse (utf8_decode (List.concat (chunks (mkBody [bareDocument] Closed))))
     = Some bareValue /\
   bareValue <> VNull) /\
  run initialState (trace (demoQuery (jsonResponse [bareDocument]))) =
    mkState (propertyOf bareValue (js "answer"))
      (propertyOf bareValue (js "sources")) false None.
Proof.
  assert (Hp : JSON_parse
                 (utf8_decode (List.concat (chunks (mkBody [bareDocument] Closed))))
               = Some bareValue) by (vm_compute; reflexivity).
  assert (Hn : bareValue <> VNull) by discriminate.
  split; [repeat split; assumption|].
  apply (json_body_is_shown_unchecked anySyntaxErrorMessage anyTypeErrorMessage
           None (answering (jsonResponse [bareDocument])) someRequest initialState
           (jsonResponse [bareDocument]) (mkBody [bareDocument] Closed) bareValue);
    solve [reflexivity | assumption].
Defined.

(** The same document on the two paths: [sources] undefined on the JSON
    path, the empty array on the streaming path. *)
Lemma missing_sources_on_the_two_paths :
  sources (run initialState (trace (demoQuery (jsonResponse [bareDocument]))))
    = VUndefined /\
  sources (run initialState (trace (demoQuery (streamed [bareDocument]))))
    = VArray [].
Proof. split; vm_compute; reflexivity. Qed.

Lemma json_body_rejected_witness :
  (answering (jsonResponse [ascii_bytes "oops"]) demoEndpoint someRequest
     = Fulfilled (jsonResponse [ascii_bytes "oops"]) /\
   ok (jsonResponse [ascii_bytes "oops"]) = true /\
   useApiStream.isJsonContentType (jsonResponse [ascii_bytes "oops"]) = true /\
   body (jsonResponse [ascii_bytes "oops"])
     = Some (mkBody [ascii_bytes "oops"] Closed) /\
   ending (mkBody [ascii_bytes "oops"] Closed) = Closed /\
   (JSON_parse (utf8_decode (List.concat (chunks (mkBody [ascii_bytes "oops"] Closed))))
      = None \/
    JSON_parse (utf8_decode (List.concat (chunks (mkBody [ascii_bytes "oops"] Closed))))
      = Some VNull)) /\
  run initialState (trace (demoQuery (jsonResponse [ascii_bytes "oops"]))) =
    mkState (VString []) (VArray []) false
      (Some (match JSON_parse (utf8_decode (List.concat
                      (chunks (mkBody [ascii_bytes "oops"] Closed)))) with
             | None => anySyntaxErrorMessage
                         (utf8_decode (List.concat
                            (chunks (mkBody [ascii_bytes "oops"] Closed))))
             | Some _ => anyTypeErrorMessage VNull (js "answer")
             end)).
Proof.
  assert (Hp : JSON_parse (utf8_decode (List.concat
                   (chunks (mkBody [ascii_bytes "oops"] Closed)))) = None \/
               JSON_parse (utf8_decode (List.concat
                   (chunks (mkBody [ascii_bytes "oops"] Closed)))) = Some VNull)
    by (left; vm_compute; reflexivity).
  split; [repeat split; assumption|].
  apply (json_body_rejected anySyntaxErrorMessage anyTypeErrorMessage
           None (answering (jsonResponse [ascii_bytes "oops"])) someRequest
           initialState (jsonResponse [ascii_bytes "oops"])
           (mkBody [ascii_bytes "oops"] Closed));
    solve [reflexivity | assumption].
Defined.

Lemma plain_text_reveal_witness :
  (answering (streamed cafeChunks) demoEndpoint someRequest
     = Fulfilled (streamed cafeChunks) /\
   ok (streamed cafeChunks) = true /\
   useApiStream.isJsonContentType (streamed cafeChunks) = false /\
   body (streamed cafeChunks) = Some (mkBody cafeChunks Closed) /\
   ending (mkBody cafeChunks Closed) = Closed /\
   neverParses (chunks (mkBody cafeChunks Closed)) = true) /\
  map answer (statesAtReads initialState (trace (demoQuery (streamed cafeChunks)))) =
    map (fun n => VString (textAfter (chunks (mkBody cafeChunks Closed)) n))
        (seq 0 (S (List.length (chunks (mkBody cafeChunks Closed))))) /\
  run initialState (trace (demoQuery (streamed cafeChunks))) =
    mkState (VString (decoded (List.concat (chunks (mkBody cafeChunks Closed)))))
      (VArray []) false None.
Proof.
  assert (Hnp : neverParses (chunks (mkBody cafeChunks Closed)) = true)
    by (vm_compute; reflexivity).
  split; [repeat split; assumption|].
  apply (plain_text_reveal anySyntaxErrorMessage anyTypeErrorMessage
           None (answering (streamed cafeChunks)) someRequest initialState
           (streamed cafeChunks) (mkBody cafeChunks Closed));
    solve [reflexivity | assumption].
Defined.

(** The e-acute comes out whole once its second byte has arrived. *)
Lemma cafe_is_revealed :
  map answer (statesAtReads initialState (trace (demoQuery (streamed cafeChunks)))) =
    [VString []; VString (js "caf"); VString (js "caf" ++ [0xE9] ++ js " ol")].
Proof. vm_compute. reflexivity. Qed.

Lemma trailing_chunk_replaces_answer_witness :
  (answering (streamed [finalDocument; lineFeed]) demoEndpoint someRequest
     = Fulfilled (streamed [finalDocument; lineFeed]) /\
   ok (streamed [finalDocument; lineFeed]) = true /\
   useApiStream.isJsonContentType (streamed [finalDocument; lineFeed]) = false /\
   body (streamed [finalDocument; lineFeed])
     = Some (mkBody [finalDocument; lineFeed] Closed) /\
   chunks (mkBody [finalDocument; lineFeed] Closed) = [] ++ [finalDocument; lineFeed] /\
   JSON_parse (demoBufferAt [] finalDocument) = Some finalValue /\
   finalValue <> VNull) /\
  demoBufferAt ([] ++ [finalDocument]) lineFeed =
    snd (decode_stream (fst (demoLoopState ([] ++ [finalDocument]))) lineFeed) /\
  answer (run initialState (trace (demoQuery (streamed [finalDocument; lineFeed])))) =
    shownFor (demoBufferAt ([] ++ [finalDocument]) lineFeed).
Proof.
  assert (Hp : JSON_parse (demoBufferAt [] finalDocument) = Some finalValue)
    by (vm_compute; reflexivity).
  assert (Hn : finalValue <> VNull) by discriminate.
  split; [repeat split; assumption|].
  apply (trailing_chunk_replaces_answer anySyntaxErrorMessage anyTypeErrorMessage
           None (answering (streamed [finalDocument; lineFeed])) someRequest
           initialState (streamed [finalDocument; lineFeed])
           (mkBody [finalDocument; lineFeed] Closed) [] finalDocument lineFeed
           finalValue);
    solve [reflexivity | assumption].
Defined.

(** A line feed in a chunk of its own after the document: the answer
    shown is the line feed. *)
Lemma trailing_line_feed_wipes_answer :
  answer (run initialState (trace (demoQuery (streamed [finalDocument; lineFeed]))))
    = VString [10] /\
  answer (run initialState
            (trace (demoQuery (streamed [finalDocument ++ lineFeed]))))
    = VString (js "final").
Proof. split; vm_compute; reflexivity. Qed.

Lemma blank_or_busy_submit_is_dropped_witness :
  (isLoading initialState = true \/ forallb isTrimmable (js "   ") = true) /\
  SearchBar.handleSubmit (isLoading initialState) (js "   ")
    = [SearchBar.PreventDefault] /\
  demoSubmit emptyResponse initialState (js "   ") = [].
Proof.
  assert (H : isLoading initialState = true \/ forallb isTrimmable (js "   ") = true)
    by (right; reflexivity).
  split; [exact H|].
  exact (blank_or_busy_submit_is_dropped anySyntaxErrorMessage anyTypeErrorMessage
           None (answering emptyResponse) initialState (js "   ") H).
Defined.

Lemma submit_searches_trimmed_text_witness :
  (isLoading initialState = false /\ trim (js "  how to deploy ") <> []) /\
  SearchBar.handleSubmit (isLoading initialState) (js "  how to deploy ") =
    [SearchBar.PreventDefault; SearchBar.OnSubmit (trim (js "  how to deploy "))] /\
  demoSubmit emptyResponse initialState (js "  how to deploy ") =
    trace (demoHandleSearch emptyResponse (trim (js "  how to deploy "))) /\
  filter isFetch (demoSubmit emptyResponse initialState (js "  how to deploy ")) =
    [Fetch demoEndpoint (mkRequest (trim (js "  how to deploy ")) (Some (5 # 1)) None)] /\
  startsClean (trim (js "  how to deploy ")) = true /\
  endsClean (trim (js "  how to deploy ")) = true /\
  trim (trim (js "  how to deploy ")) = trim (js "  how to deploy ").
Proof.
  assert (H : trim (js "  how to deploy ") <> [])
    by (intros H; vm_compute in H; discriminate H).
  split; [split; [reflexivity|exact H]|].
  exact (submit_searches_trimmed_text anySyntaxErrorMessage anyTypeErrorMessage
           None (answering emptyResponse) initialState (js "  how to deploy ")
           eq_refl H).
Defined.

Lemma submitted_text_is_trimmed :
  trim (js "  how to deploy ") = js "how to deploy".
Proof. vm_compute. reflexivity. Qed.

Lemma try_again_shows_welcome_witness :
  isLoading failedState = false /\
  existsb isNetworkEvent (trace useApiStream.reset) = false /\
  App.showsError (run failedState (trace useApiStream.reset)) = false /\
  App.showsSpinner (run failedState (trace useApiStream.reset)) = false /\
  App.showsWelcome (run failedState (trace useApiStream.reset)) = true.
Proof.
  split; [reflexivity|].
  exact (try_again_shows_welcome failedState eq_refl).
Defined.

Lemma stream_is_read_chunk_by_chunk_witness :
  (answering (interrupted helloChunks) demoEndpoint someRequest
     = Fulfilled (interrupted helloChunks) /\
   ok (interrupted helloChunks) = true /\
   useApiStream.isJsonContentType (interrupted helloChunks) = false /\
   body (interrupted helloChunks)
     = Some (mkBody helloChunks (Errored (OtherThrown VNull)))) /\
  count isGetReader (trace (demoQuery (interrupted helloChunks))) = 1%nat /\
  count isReaderRead (trace (demoQuery (interrupted helloChunks))) =
    S (List.length (chunks (mkBody helloChunks (Errored (OtherThrown VNull))))) /\
  count isResponseJson (trace (demoQuery (interrupted helloChunks))) = 0%nat /\
  count isSetAnswer (trace (demoQuery (interrupted helloChunks))) =
    S (List.length (chunks (mkBody helloChunks (Errored (OtherThrown VNull))))).
Proof.
  split; [repeat split|].
  apply (stream_is_read_chunk_by_chunk anySyntaxErrorMessage anyTypeErrorMessage
           None (answering (interrupted helloChunks)) someRequest
           (interrupted helloChunks)
           (mkBody helloChunks (Errored (OtherThrown VNull))));
    reflexivity.
Defined.

Lemma json_and_stream_agree_witness :
  (twoWay (jsonResponse [finalDocument]) (streamed [finalDocument]) demoEndpoint
     someRequest = Fulfilled (jsonResponse [finalDocument]) /\
   ok (jsonResponse [finalDocument]) = true /\
   useApiStream.isJsonContentType (jsonResponse [finalDocument]) = true /\
   body (jsonResponse [finalDocument]) = Some (mkBody [finalDocument] Closed) /\
   ending (mkBody [finalDocument] Closed) = Closed /\
   List.concat (chunks (mkBody [finalDocument] Closed)) = finalDocument /\
   twoWay (jsonResponse [finalDocument]) (streamed [finalDocument]) demoEndpoint
     otherRequest = Fulfilled (streamed [finalDocument]) /\
   ok (streamed [finalDocument]) = true /\
   useApiStream.isJsonContentType (streamed [finalDocument]) = false /\
   body (streamed [finalDocument]) = Some (mkBody [finalDocument] Closed) /\
   chunks (mkBody [finalDocument] Closed) = [finalDocument] /\
   endsComplete finalDocument = true /\
   JSON_parse (utf8_decode finalDocument) = Some finalValue /\
   finalValue <> VNull) /\
  answer (run initialState
            (trace (demoTwoWayQuery (jsonResponse [finalDocument])
                      (streamed [finalDocument]) someRequest))) =
    answer (run failedState
              (trace (demoTwoWayQuery (jsonResponse [finalDocument])
                        (streamed [finalDocument]) otherRequest))) /\
  sources (run initialState
             (trace (demoTwoWayQuery (jsonResponse [finalDocument])
                       (streamed [finalDocument]) someRequest))) =
    propertyOf finalValue (js "sources") /\
  sources (run failedState
             (trace (demoTwoWayQuery (jsonResponse [finalDocument])
                       (streamed [finalDocument]) otherRequest))) =
    (if toBoolean (propertyOf finalValue (js "sources"))
     then propertyOf finalValue (js "sources") else VArray []).
Proof.
  assert (Hcat : List.concat (chunks (mkBody [finalDocument] Closed)) = finalDocument)
    by apply app_nil_r.
  assert (Hc : endsComplete finalDocument = true) by (vm_compute; reflexivity).
  assert (Hp : JSON_parse (utf8_decode finalDocument) = Some finalValue)
    by (vm_compute; reflexivity).
  assert (Hn : finalValue <> VNull) by discriminate.
  split; [repeat split; assumption|].
  apply (json_and_stream_agree anySyntaxErrorMessage anyTypeErrorMessage None
           (twoWay (jsonResponse [finalDocument]) (streamed [finalDocument]))
           someRequest otherRequest initialState failedState
           (jsonResponse [finalDocument]) (streamed [finalDocument])
           (mkBody [finalDocument] Closed) (mkBody [finalDocument] Closed)
           finalDocument finalValue);
    solve [reflexivity | assumption].
Defined.
